(** * FUB building energy dashboard: the device registry of [streamlit_app.py]

    The dashboard keeps one dictionary, [st.session_state.building_data],
    from device id to a record of readings.  This development embeds the
    code that creates, reads and mutates that dictionary and proves the
    registry contract against it.

    Modelling choices.
    - The dictionary is a [gmap string device]; a record is a Python dict
      with a fixed set of keys and is modelled as a Rocq record.  Records
      are built by a fresh dict literal at every creation site, so no two
      keys alias one record and mutation in place is modelled by value.
    - Python numbers: [int] is [Z]; [float] is modelled by the exact
      rational it denotes ([Q]), and the binary rounding of float
      operations is not modelled.  [round(x, 2)] is rounding to the nearest
      hundredth, ties to even.  The contract is therefore stated so that it
      holds under binary rounding too: bounds on stored readings carry
      slack, and what a deletion does to the totals is stated over the
      records that are summed, not as an identity between float sums.
    - Dictionary accesses that can raise [KeyError] ([d[k]], [del d[k]])
      are fallible: handlers live in a state-and-exception monad over the
      registry.
    - [random] is an oracle: the outcome of the calls made for the n-th
      room is an arbitrary [Draw]; range facts are hypotheses on it.
    - A [gmap] has no insertion order.  The code iterates the dictionary
      only to sum and to count, and over exact rationals neither depends
      on the order. *)

From Stdlib Require Import ZArith QArith Qround Qabs String Ascii List Lia Lqa.
From stdpp Require Import gmap strings list fin_maps.

Local Open Scope string_scope.

(** ** Numbers *)

Module Num.

(** [round(x)] to an integer, ties to even (Python 3 semantics). *)
Definition round_half_even (x : Q) : Z :=
  let f := Qfloor x in
  match (x - inject_Z f) ?= (1 # 2) with
  | Lt => f
  | Gt => (f + 1)%Z
  | Eq => if Z.even f then f else (f + 1)%Z
  end%Q.

(** [round(x, 2)] *)
Definition round2 (x : Q) : Q :=
  (inject_Z (round_half_even (x * 100)) / 100)%Q.

(** Python [sum(...)] over numbers: accumulate from 0, left to right. *)
Definition sum (l : list Q) : Q := fold_left Qplus l 0%Q.

Definition sum_int (l : list Z) : Z := fold_left Z.add l 0%Z.

End Num.

(** ** Strings *)

(** [s.replace(" ", "")]: every occurrence of the space character is dropped. *)
Fixpoint replace_space (s : string) : string :=
  match s with
  | EmptyString => EmptyString
  | String c s' =>
      if Ascii.eqb c " "%char then replace_space s'
      else String c (replace_space s')
  end.

(** Truth value of a [str]: non-empty. *)
Definition truthy (s : string) : bool :=
  match s with EmptyString => false | String _ _ => true end.

(** ** Device records *)

Record device := Device {
  room_id : string;
  room_name : string;
  floor : string;
  device_type : option string;   (* key present only on added devices *)
  ac_status : bool;
  power : Z;
  voltage : Z;
  current : Q;
  energy_kwh : Q;
  cost_taka : Q;
  carbon_emissions : Q
}.

(** [rec['ac_status'] = status] *)
Definition set_ac_status (status : bool) (r : device) : device :=
  {| room_id := room_id r; room_name := room_name r; floor := floor r;
     device_type := device_type r; ac_status := status;
     power := power r; voltage := voltage r; current := current r;
     energy_kwh := energy_kwh r; cost_taka := cost_taka r;
     carbon_emissions := carbon_emissions r |}.

Abbreviation registry := (gmap string device).

(** ** The session monad: registry state plus [KeyError] *)

Inductive exn := KeyError (key : string).

Inductive result (A : Type) :=
| Ok (a : A)
| Raise (e : exn).
Arguments Ok {A} a.
Arguments Raise {A} e.

Definition Session (A : Type) : Type := registry -> result A * registry.

Definition ret {A} (a : A) : Session A := fun reg => (Ok a, reg).

Definition bind {A B} (m : Session A) (k : A -> Session B) : Session B :=
  fun reg =>
    match m reg with
    | (Ok a, reg') => k a reg'
    | (Raise e, reg') => (Raise e, reg')
    end.

#[global] Instance session_ret : MRet Session := @ret.
#[global] Instance session_bind : MBind Session :=
  fun A B k m => bind m k.

Module Dict.

(** [k in d] *)
Definition contains (k : string) : Session bool :=
  fun reg => (Ok (bool_decide (is_Some (reg !! k))), reg).

(** [d[k]] *)
Definition getitem (k : string) : Session device :=
  fun reg =>
    match reg !! k with
    | Some r => (Ok r, reg)
    | None => (Raise (KeyError k), reg)
    end.

(** [d[k] = r] *)
Definition setitem (k : string) (r : device) : Session unit :=
  fun reg => (Ok tt, <[k := r]> reg).

(** [d.get(k)] *)
Definition get (k : string) : Session (option device) :=
  fun reg => (Ok (reg !! k), reg).

(** [del d[k]] *)
Definition delitem (k : string) : Session unit :=
  fun reg =>
    match reg !! k with
    | Some _ => (Ok tt, delete k reg)
    | None => (Raise (KeyError k), reg)
    end.

(** [d.values()] as a list *)
Definition values (reg : registry) : list device :=
  (map_to_list reg).*2.

(** [len(d)] *)
Definition len (reg : registry) : nat := size reg.

End Dict.

(** ** Building structure and initial generation *)

(** [get_building_structure()]: floors in insertion order, each with its
    ordered rooms. *)
Definition get_building_structure : list (string * list string) :=
  [ ("Ground", ["Room 101"; "Room 102"; "Room 103"]);
    ("1", ["Room 201"; "Room 202"; "Room 203"; "Room 204"]);
    ("2", ["Room 301"; "Room 302"; "Room 303"]);
    ("3", ["Room 401"; "Room 402"; "Room 403"; "Room 404"]);
    ("4", ["Room 501"; "Room 502"]);
    ("5", ["Room 601"; "Room 602"; "Room 603"]) ].

(** Outcomes of the three [random] calls made for one room, in call order:
    [random.randint(800, 2000)], [random.uniform(5, 25)],
    [random.choice([True, False])]. *)
Record Draw := {
  randint_800_2000 : Z;
  uniform_5_25 : Q;
  choice_bool : bool
}.

Definition draw_in_range (d : Draw) : Prop :=
  (800 <= randint_800_2000 d <= 2000)%Z /\
  (5 <= uniform_5_25 d)%Q /\ (uniform_5_25 d <= 25)%Q.

Section Generation.

(** The random source: the n-th room processed receives [rnd n]. *)
Variable rnd : nat -> Draw.

(** Body of the inner loop: the id and the record stored for one room. *)
Definition synthesize (floor_ room : string) (d : Draw) : string * device :=
  let room_id_ := replace_space room in
  let power_ := randint_800_2000 d in
  let voltage_ := 220%Z in
  let current_ := (inject_Z power_ / inject_Z voltage_)%Q in
  let energy := uniform_5_25 d in
  let cost := (energy * 8.5)%Q in
  let carbon := (energy * 500)%Q in
  (room_id_,
   {| room_id := room_id_;
      room_name := room;
      floor := floor_;
      device_type := None;
      ac_status := choice_bool d;
      power := power_;
      voltage := voltage_;
      current := Num.round2 current_;
      energy_kwh := Num.round2 energy;
      cost_taka := Num.round2 cost;
      carbon_emissions := Num.round2 carbon |}).

(** [for room in rooms: ...], threading the draw counter and [data]. *)
Fixpoint generate_rooms (floor_ : string) (rooms : list string)
    (n : nat) (data : registry) : nat * registry :=
  match rooms with
  | [] => (n, data)
  | room :: rest =>
      let '(k, r) := synthesize floor_ room (rnd n) in
      generate_rooms floor_ rest (S n) (<[k := r]> data)
  end.

(** [for floor, rooms in building_structure.items(): ...] *)
Fixpoint generate_floors (structure : list (string * list string))
    (n : nat) (data : registry) : nat * registry :=
  match structure with
  | [] => (n, data)
  | (floor_, rooms) :: rest =>
      let '(n', data') := generate_rooms floor_ rooms n data in
      generate_floors rest n' data'
  end.

Definition generate_synthetic_data : registry :=
  snd (generate_floors get_building_structure 0 ∅).

End Generation.

(** ** Registry operations *)

(** [update_device_status(device_id, status)] *)
Definition update_device_status (device_id : string) (status : bool)
    : Session bool :=
  present ← Dict.contains device_id;
  if present : bool then
    r ← Dict.getitem device_id;
    Dict.setitem device_id (set_ac_status status r);;
    mret true
  else mret false.

(** What a handler shows to the operator. *)
Inductive ui_event :=
| St_success (msg : string)
| St_error (msg : string)
| St_rerun.

(** The [new_device] dict literal built from the form inputs:
    [initial_status] is the radio label and [power_rating] the integer of
    the number input. *)
Definition new_device
    (device_id room_name_ floor_ device_type_ initial_status : string)
    (power_rating : Z) : device :=
  {| room_id := device_id;
     room_name := room_name_;
     floor := floor_;
     device_type := Some device_type_;
     ac_status := bool_decide (initial_status = "ON");
     power := power_rating;
     voltage := 220%Z;
     current := (inject_Z power_rating / 220)%Q;
     energy_kwh := 0%Q;
     cost_taka := 0%Q;
     carbon_emissions := 0%Q |}.

(** The submitted "Add Device" form of [show_device_management]:
    the body of [if submitted:]. *)
Definition add_device_form
    (device_id room_name_ floor_ device_type_ initial_status : string)
    (power_rating : Z) : Session (list ui_event) :=
  if truthy device_id && truthy room_name_ then
    let new_device_ :=
      new_device device_id room_name_ floor_ device_type_ initial_status
        power_rating in
    Dict.setitem device_id new_device_;;
    mret [St_success ("Device " ++ device_id ++ " added successfully!");
          St_rerun]
  else
    mret [St_error "Please fill in all required fields"].

(** The "Delete" button of one device row:
    [if building_data.get(device_id): del building_data[device_id]; st.rerun()].
    A record is a non-empty dict, hence truthy whenever it is found. *)
Definition delete_button (device_id : string) : Session (list ui_event) :=
  found ← Dict.get device_id;
  match found with
  | Some _ => Dict.delitem device_id;; mret [St_rerun]
  | None => mret []
  end.

(** The generator [1 for room in rooms if room['ac_status']]. *)
Definition ones_if_on (rooms : list device) : list Z :=
  (fun _ => 1%Z) <$> filter (fun r => ac_status r = true) rooms.

(** The summary metrics of [show_building_overview]. *)
Record summary := {
  total_energy : Q;
  total_cost : Q;
  total_carbon : Q;
  active_devices : Z;
  device_count : nat
}.

Definition aggregate (reg : registry) : summary :=
  {| total_energy := Num.sum (energy_kwh <$> Dict.values reg);
     total_cost := Num.sum (cost_taka <$> Dict.values reg);
     total_carbon := Num.sum (carbon_emissions <$> Dict.values reg);
     active_devices := Num.sum_int (ones_if_on (Dict.values reg));
     device_count := Dict.len reg |}.

(** What one record adds to the count of active devices. *)
Definition on_count (r : device) : Z := if ac_status r then 1%Z else 0%Z.

(** Running a handler: the registry it leaves and the value it returns. *)
Definition exec {A} (m : Session A) (reg : registry) : registry := snd (m reg).
Definition eval {A} (m : Session A) (reg : registry) : result A := fst (m reg).

(** ** The two-room scenario of the specification *)

Definition scenario_room (id name : string) (energy : Q) (on : bool)
    : device :=
  {| room_id := id; room_name := name; floor := "Ground";
     device_type := None; ac_status := on;
     power := 1500; voltage := 220;
     current := Num.round2 (1500 / 220);
     energy_kwh := energy;
     cost_taka := (energy * 8.5)%Q;
     carbon_emissions := (energy * 500)%Q |}.

Definition room101 : device := scenario_room "Room101" "Room 101" 10 true.
Definition room102 : device := scenario_room "Room102" "Room 102" 5 false.

Definition scenario_registry : registry :=
  <["Room102" := room102]> (<["Room101" := room101]> ∅).

(** ** Sessions as sequences of operator actions *)

Inductive action :=
| Add (device_id room_name_ floor_ device_type_ initial_status : string)
      (power_rating : Z)
| SetStatus (device_id : string) (status : bool)
| Delete (device_id : string).

Definition perform (a : action) (reg : registry) : registry :=
  match a with
  | Add device_id name fl ty st pw =>
      exec (add_device_form device_id name fl ty st pw) reg
  | SetStatus device_id status =>
      exec (update_device_status device_id status) reg
  | Delete device_id => exec (delete_button device_id) reg
  end.

(** The registries a session can hold: the generated one, then any
    sequence of actions. *)
Inductive reachable : registry -> Prop :=
| reach_init (rnd : nat -> Draw) : reachable (generate_synthetic_data rnd)
| reach_step (a : action) (reg : registry) :
    reachable reg -> reachable (perform a reg).

(** Every record is stored under its own [room_id]. *)
Definition keys_match (reg : registry) : Prop :=
  forall k r, reg !! k = Some r -> room_id r = k.

(** ** Auxiliary views of the generation loops *)

(** The rooms of a structure in processing order, each with its floor. *)
Definition rooms_of (structure : list (string * list string))
    : list (string * string) :=
  flat_map (fun '(floor_, rooms) => map (pair floor_) rooms) structure.

(** The ids the loops assign to a list of rooms. *)
Definition ids_of (rooms : list (string * string)) : list string :=
  map (fun fr => replace_space (snd fr)) rooms.

(** The two nested loops as one loop over [rooms_of]. *)
Fixpoint generate_flat (rnd : nat -> Draw) (rooms : list (string * string))
    (n : nat) (data : registry) : nat * registry :=
  match rooms with
  | [] => (n, data)
  | (floor_, room) :: rest =>
      let '(k, r) := synthesize floor_ room (rnd n) in
      generate_flat rnd rest (S n) (<[k := r]> data)
  end.

(** The normalisation in the words of the specification: the room name
    with its whitespace removed, whitespace being the ASCII characters for
    which [str.isspace] holds. *)
Definition is_whitespace (c : ascii) : bool :=
  let n := nat_of_ascii c in
  (Nat.leb 9 n && Nat.leb n 13) || (Nat.leb 28 n && Nat.leb n 32).

Fixpoint remove_whitespace (s : string) : string :=
  match s with
  | EmptyString => EmptyString
  | String c s' =>
      if is_whitespace c then remove_whitespace s'
      else String c (remove_whitespace s')
  end.

(** A fixed random source, for examples. *)
Definition sample_draw : Draw :=
  {| randint_800_2000 := 800; uniform_5_25 := 1281 # 256;
     choice_bool := true |}.

Definition sample_rnd (n : nat) : Draw := sample_draw.

(** Draws that [random] can return: [randint] gives 800, and [uniform]
    gives [5 + (25 - 5) * u] for [u = 1759218604442 / 2^53], which is the
    binary float 5.00390625 + 2^-50 = 5633897580724225 / 2^50. *)
Definition tie_free_draw : Draw :=
  {| randint_800_2000 := 800;
     uniform_5_25 := 5633897580724225 # 1125899906842624;
     choice_bool := true |}.

Definition tie_free_rnd (n : nat) : Draw := tie_free_draw.

(** ** Room details page *)

(** One entry of the room select box:
    [f"{room_id} - {data['room_name']}"]. *)
Definition room_option (room_id_ : string) (data : device) : string :=
  room_id_ ++ " - " ++ room_name data.

(** [room_options]: one entry per item of the registry. *)
Definition room_options (reg : registry) : list string :=
  (fun kd : string * device => room_option (fst kd) (snd kd))
    <$> map_to_list reg.

(** [s.split(sep)[0]] for a non-empty [sep]: the part of [s] before the
    first occurrence of [sep], all of [s] when there is none. *)
Fixpoint split_head (sep s : string) : string :=
  if String.prefix sep s then EmptyString
  else match s with
       | EmptyString => EmptyString
       | String c s' => String c (split_head sep s')
       end.

(** [selected_room = selected_room_option.split(" - ")[0]] *)
Definition selected_room (selected_room_option : string) : string :=
  split_head " - " selected_room_option.

(** The label of the toggle button of the selected room. *)
Definition toggle_label (room_data : device) : string :=
  if negb (ac_status room_data) then "Turn ON AC" else "Turn OFF AC".

(** A press of that button, under the page's guard
    [if selected_room in st.session_state.building_data:]. *)
Definition toggle_ac_button (selected_room_ : string)
    : Session (list ui_event) :=
  present ← Dict.contains selected_room_;
  if present : bool then
    room_data ← Dict.getitem selected_room_;
    update_device_status selected_room_ (negb (ac_status room_data));;
    mret [St_rerun]
  else mret [].

(** ** Sessions driven through the widgets *)

(** The options of the floor select box of the add form. *)
Definition floor_options : list string :=
  ["Ground"; "1"; "2"; "3"; "4"; "5"].

(** What the add form's widgets allow: a floor among the options and a
    power rating of at least [min_value=0]. *)
Definition widget_valid (a : action) : Prop :=
  match a with
  | Add _ _ fl _ _ pw => fl ∈ floor_options /\ (0 <= pw)%Z
  | SetStatus _ _ | Delete _ => True
  end.

(** The registry after a sequence of actions, first action first. *)
Definition run (actions : list action) (reg : registry) : registry :=
  fold_left (fun reg a => perform a reg) actions reg.

(** A property of every stored record. *)
Definition all_records (P : device -> Prop) (reg : registry) : Prop :=
  forall k r, reg !! k = Some r -> P r.

(** ** Readings of a record *)

(** The ranges of the stored readings of a generated record. *)
Definition generated_ranges (r : device) : Prop :=
  floor r ∈ floor_options /\
  (800 <= power r <= 2000)%Z /\
  (3.63 <= current r)%Q /\ (current r <= 9.1)%Q /\
  (5 <= energy_kwh r)%Q /\ (energy_kwh r <= 25)%Q /\
  (42.5 <= cost_taka r)%Q /\ (cost_taka r <= 212.5)%Q /\
  (2500 <= carbon_emissions r)%Q /\ (carbon_emissions r <= 12500)%Q.

(** What holds of every record while the add form is fed through its
    widgets: a floor of the select box and no negative reading. *)
Definition readings_ok (r : device) : Prop :=
  floor r ∈ floor_options /\
  (0 <= power r)%Z /\ (0 <= current r)%Q /\ (0 <= energy_kwh r)%Q /\
  (0 <= cost_taka r)%Q /\ (0 <= carbon_emissions r)%Q.

(** ** Spaces in ids *)

(** No character of the string is a space. *)
Fixpoint no_space (s : string) : bool :=
  match s with
  | EmptyString => true
  | String c s' => negb (Ascii.eqb c " "%char) && no_space s'
  end.

(** ** The simulated series of the room details page *)

Module Chart.

(** What building a series can raise. *)
Inductive error := IndexError | ZeroDivisionError.

(** [power_data]: one value per time point, [n = len(time_points)]. *)
Definition power_data (base_power : Z) (n : nat) : list Q :=
  (fun i : nat =>
     inject_Z base_power
     * (0.7 + 0.6 * inject_Z (Z.of_nat i mod 24) / 24))%Q <$> seq 0 n.

(** [voltage_data] *)
Definition voltage_data (n : nat) : list Q :=
  (fun i : nat => 220 + 10 * inject_Z (Z.of_nat i mod 12) / 12)%Q
    <$> seq 0 n.

(** [l[i]] for an index that is not negative. *)
Definition getitem (l : list Q) (i : nat) : error + Q :=
  match l !! i with
  | Some x => inr x
  | None => inl IndexError
  end.

(** [a / b] *)
Definition truediv (a b : Q) : error + Q :=
  if Qeq_bool b 0 then inl ZeroDivisionError else inr (a / b)%Q.

(** [[power_data[i] / voltage_data[i] for i in indices]], evaluated left
    to right, stopping at the first error. *)
Fixpoint current_data_over (power voltage : list Q) (indices : list nat)
    : error + list Q :=
  match indices with
  | [] => inr []
  | i :: rest =>
      match getitem power i with
      | inl e => inl e
      | inr p =>
          match getitem voltage i with
          | inl e => inl e
          | inr v =>
              match truediv p v with
              | inl e => inl e
              | inr c =>
                  match current_data_over power voltage rest with
                  | inl e => inl e
                  | inr cs => inr (c :: cs)
                  end
              end
          end
      end
  end.

(** [current_data] as the page computes it from its own two series. *)
Definition current_data (base_power : Z) (n : nat) : error + list Q :=
  current_data_over (power_data base_power n) (voltage_data n) (seq 0 n).

(** [daily_energy] and [daily_cost] over [range(15)]. *)
Definition daily_energy (energy : Q) : list Q :=
  (fun i : nat => energy * (0.8 + 0.4 * inject_Z (Z.of_nat i mod 7) / 7))%Q
    <$> seq 0 15.

Definition daily_cost (energy : Q) : list Q :=
  (fun e : Q => e * 8.5)%Q <$> daily_energy energy.

End Chart.

(** ** The floor pages of the overview *)

(** The items shown as tiles for the selected floor, in iteration order:
    [if room_data['floor'] == selected_floor]. *)
Definition floor_tiles (selected_floor : string) (reg : registry)
    : list (string * device) :=
  filter (fun kd : string * device => floor (snd kd) = selected_floor)
    (map_to_list reg).

(** [list(floors.keys())]: the floors offered by the overview. *)
Definition overview_floors : list string :=
  fst <$> get_building_structure.

(** * Proofs *)

(** ** Running the handlers *)

Ltac run_session :=
  unfold update_device_status, add_device_form, delete_button,
    Dict.contains, Dict.getitem, Dict.setitem, Dict.get, Dict.delitem,
    mbind, mret, session_bind, session_ret, bind, ret, exec, eval in *;
  cbv beta in *.


Lemma truthy_spec s : truthy s = true <-> s <> "".
Proof. destruct s; simpl; split; congruence. Qed.

Lemma truthy_empty : truthy "" = false.
Proof. reflexivity. Qed.

Section Handlers.

Implicit Types (reg : registry) (r : device) (k device_id : string).

Lemma update_present reg device_id status r :
  reg !! device_id = Some r ->
  update_device_status device_id status reg
  = (Ok true, <[device_id := set_ac_status status r]> reg).
Proof.
  intros Hr. run_session.
  rewrite bool_decide_true by (rewrite Hr; eauto).
  now rewrite Hr.
Qed.

Lemma update_absent reg device_id status :
  reg !! device_id = None ->
  update_device_status device_id status reg = (Ok false, reg).
Proof.
  intros Hr. run_session.
  rewrite bool_decide_false; [reflexivity|].
  rewrite Hr. intros [? ?]; discriminate.
Qed.

Lemma set_ac_status_twice status r :
  set_ac_status status (set_ac_status status r) = set_ac_status status r.
Proof. reflexivity. Qed.

Lemma add_accepted reg device_id name fl ty st pw :
  device_id <> "" -> name <> "" ->
  add_device_form device_id name fl ty st pw reg
  = (Ok [St_success ("Device " ++ device_id ++ " added successfully!");
         St_rerun],
     <[device_id := new_device device_id name fl ty st pw]> reg).
Proof.
  intros Hid Hname. run_session.
  apply truthy_spec in Hid, Hname. now rewrite Hid, Hname.
Qed.

Lemma add_rejected reg device_id name fl ty st pw :
  device_id = "" \/ name = "" ->
  add_device_form device_id name fl ty st pw reg
  = (Ok [St_error "Please fill in all required fields"], reg).
Proof.
  intros [-> | ->]; run_session; [reflexivity|].
  now rewrite truthy_empty, andb_false_r.
Qed.

Lemma delete_present reg device_id r :
  reg !! device_id = Some r ->
  delete_button device_id reg = (Ok [St_rerun], delete device_id reg).
Proof. intros Hr. run_session. now rewrite !Hr. Qed.

Lemma delete_absent reg device_id :
  reg !! device_id = None ->
  delete_button device_id reg = (Ok [], reg).
Proof. intros Hr. run_session. now rewrite !Hr. Qed.

End Handlers.

(** ** Status updates *)

(** C5: for an id that is not in the registry, [update_device_status]
    returns [False] (it raises nothing) and leaves the registry as it was,
    whatever the requested status. *)
Theorem update_device_status_unknown_id
    (reg : registry) (device_id : string) (status : bool) :
  reg !! device_id = None ->
  update_device_status device_id status reg = (Ok false, reg).
Proof.
  intros Habsent.
  destruct (update_device_status device_id status reg) as [res reg'] eqn:Hrun.
  rewrite update_absent in Hrun by assumption.
  now inversion Hrun.
Qed.

Lemma update_device_status_unknown_id_witness :
  (∅ : registry) !! "NoSuchId" = None /\
  update_device_status "NoSuchId" true ∅ = (Ok false, ∅).
Proof.
  split; [reflexivity|].
  apply (update_device_status_unknown_id ∅ "NoSuchId" true). reflexivity.
Defined.

(** C4: [update_device_status] is idempotent.  Running it twice in
    succession with the same id and status returns the same value and
    leaves the same registry as running it once. *)
Theorem update_device_status_idempotent
    (reg : registry) (device_id : string) (status : bool) :
  (update_device_status device_id status;;
   update_device_status device_id status) reg
  = update_device_status device_id status reg
  /\ exec (update_device_status device_id status)
       (exec (update_device_status device_id status) reg)
     = exec (update_device_status device_id status) reg.
Proof.
  destruct (reg !! device_id) as [r|] eqn:Hr.
  - assert (Hagain :
      update_device_status device_id status
        (<[device_id := set_ac_status status r]> reg)
      = (Ok true, <[device_id := set_ac_status status r]> reg)).
    { erewrite update_present by apply lookup_insert_eq.
      now rewrite set_ac_status_twice, insert_insert_eq. }
    split.
    + unfold mbind, session_bind, bind.
      now rewrite (update_present _ _ _ _ Hr), Hagain.
    + unfold exec. rewrite (update_present _ _ _ _ Hr). simpl.
      now rewrite Hagain.
  - split.
    + unfold mbind, session_bind, bind.
      now rewrite !(update_absent _ _ _ Hr).
    + unfold exec. rewrite (update_absent _ _ _ Hr). simpl.
      now rewrite (update_absent _ _ _ Hr).
Qed.

(** C10: frame of [update_device_status].  When the id is present the call
    succeeds, the record under that id differs from the old one in
    [ac_status] alone, and every other key holds the record it held. *)
Theorem update_device_status_frame
    (reg : registry) (device_id : string) (status : bool) (r : device) :
  reg !! device_id = Some r ->
  let reg' := exec (update_device_status device_id status) reg in
  eval (update_device_status device_id status) reg = Ok true /\
  (forall k, k <> device_id -> reg' !! k = reg !! k) /\
  dom reg' = dom reg /\
  exists r',
    reg' !! device_id = Some r' /\
    ac_status r' = status /\
    room_id r' = room_id r /\ room_name r' = room_name r /\
    floor r' = floor r /\ device_type r' = device_type r /\
    power r' = power r /\ voltage r' = voltage r /\
    current r' = current r /\ energy_kwh r' = energy_kwh r /\
    cost_taka r' = cost_taka r /\
    carbon_emissions r' = carbon_emissions r.
Proof.
  intros Hr reg'. subst reg'. unfold exec, eval.
  rewrite (update_present _ _ _ _ Hr). simpl.
  split; [reflexivity|]. split; [|split].
  - intros k Hk. now apply lookup_insert_ne.
  - apply dom_insert_lookup_L. eauto.
  - exists (set_ac_status status r).
    rewrite lookup_insert_eq. now repeat split.
Qed.

Lemma update_device_status_frame_witness :
  scenario_registry !! "Room102" = Some room102 /\
  exists r',
    exec (update_device_status "Room102" true) scenario_registry !! "Room102"
    = Some r' /\
    ac_status r' = true /\ energy_kwh r' = energy_kwh room102 /\
    exec (update_device_status "Room102" true) scenario_registry !! "Room101"
    = Some room101.
Proof.
  assert (Hin : scenario_registry !! "Room102" = Some room102)
    by reflexivity.
  split; [exact Hin|].
  destruct (update_device_status_frame scenario_registry "Room102" true
              room102 Hin)
    as (_ & Hother & _ & r' & Hr' & Hon & Hrest).
  exists r'. split; [exact Hr'|]. split; [exact Hon|].
  split; [apply Hrest|].
  rewrite Hother; [reflexivity | discriminate].
Defined.

(** ** Adding a device *)

(** C7: the add form submitted with an empty device id or an empty room
    name inserts nothing: the registry, and so its size, is unchanged, and
    the operator is shown the error message. *)
Theorem add_device_form_rejects_empty
    (reg : registry) (device_id name fl ty st : string) (pw : Z) :
  device_id = "" \/ name = "" ->
  add_device_form device_id name fl ty st pw reg
  = (Ok [St_error "Please fill in all required fields"], reg)
  /\ size (exec (add_device_form device_id name fl ty st pw) reg) = size reg.
Proof.
  intros Hempty. unfold exec.
  rewrite (add_rejected reg device_id name fl ty st pw Hempty).
  split; reflexivity.
Qed.

Lemma add_device_form_rejects_empty_witness :
  ("" = "" \/ "X" = "") /\
  add_device_form "" "X" "Ground" "AC" "ON" 1500 scenario_registry
  = (Ok [St_error "Please fill in all required fields"], scenario_registry).
Proof.
  assert (Hempty : "" = "" \/ "X" = "") by (left; reflexivity).
  split; [exact Hempty|].
  apply (add_device_form_rejects_empty scenario_registry
           "" "X" "Ground" "AC" "ON" 1500 Hempty).
Defined.

(** C1, as stated, fails: the add form has no check for an id that is
    already a key.  Submitting the id of [room101] again replaces that
    record and reports success. *)
Lemma add_device_form_duplicate_overwrites :
  is_Some (scenario_registry !! "Room101") /\
  exec (add_device_form "Room101" "Lab" "1" "Light" "OFF" 60)
    scenario_registry <> scenario_registry /\
  eval (add_device_form "Room101" "Lab" "1" "Light" "OFF" 60)
    scenario_registry
  = Ok [St_success "Device Room101 added successfully!"; St_rerun].
Proof.
  split; [exists room101; reflexivity|]. split; [|reflexivity].
  intros Hsame.
  apply (f_equal (fun reg : registry => room_name <$> reg !! "Room101"))
    in Hsame.
  vm_compute in Hsame. discriminate Hsame.
Qed.

(** C1, amended: submitted with a non-empty id that is already a key (and a
    non-empty room name), the add form stores the new record under that id
    in place of the old one and reports success; the set of ids, the size
    of the registry and every other record are unchanged. *)
Theorem add_device_form_existing_id
    (reg : registry) (device_id name fl ty st : string) (pw : Z) :
  device_id <> "" -> name <> "" -> is_Some (reg !! device_id) ->
  let reg' := exec (add_device_form device_id name fl ty st pw) reg in
  eval (add_device_form device_id name fl ty st pw) reg
  = Ok [St_success ("Device " ++ device_id ++ " added successfully!");
        St_rerun] /\
  reg' !! device_id = Some (new_device device_id name fl ty st pw) /\
  (forall k, k <> device_id -> reg' !! k = reg !! k) /\
  dom reg' = dom reg /\
  size reg' = size reg.
Proof.
  intros Hid Hname Hin reg'. subst reg'. unfold exec, eval.
  rewrite (add_accepted reg device_id name fl ty st pw Hid Hname). simpl.
  split; [reflexivity|]. split; [apply lookup_insert_eq|].
  split; [intros k Hk; now apply lookup_insert_ne|].
  assert (Hdom : dom (<[device_id := new_device device_id name fl ty st pw]> reg)
                 = dom reg) by now apply dom_insert_lookup_L.
  split; [exact Hdom|].
  now rewrite <- !size_dom, Hdom.
Qed.

Lemma add_device_form_existing_id_witness :
  "Room101" <> "" /\ "Lab" <> "" /\
  is_Some (scenario_registry !! "Room101") /\
  exec (add_device_form "Room101" "Lab" "1" "Light" "OFF" 60)
    scenario_registry !! "Room101"
  = Some (new_device "Room101" "Lab" "1" "Light" "OFF" 60).
Proof.
  assert (Hid : "Room101" <> "") by discriminate.
  assert (Hname : "Lab" <> "") by discriminate.
  assert (Hin : is_Some (scenario_registry !! "Room101"))
    by (exists room101; reflexivity).
  repeat (split; [assumption|]).
  apply (add_device_form_existing_id scenario_registry
           "Room101" "Lab" "1" "Light" "OFF" 60 Hid Hname Hin).
Defined.

(** ** Sums over the registry *)

Lemma fold_Qplus_acc (l : list Q) (a : Q) :
  (fold_left Qplus l a == a + fold_left Qplus l 0)%Q.
Proof.
  revert a. induction l as [|x l IH]; intros a; cbn [fold_left].
  - ring.
  - rewrite (IH (a + x)%Q), (IH (0 + x)%Q). ring.
Qed.

Lemma sum_cons (x : Q) (l : list Q) :
  (Num.sum (x :: l) == x + Num.sum l)%Q.
Proof.
  unfold Num.sum. cbn [fold_left]. rewrite fold_Qplus_acc. ring.
Qed.

Lemma sum_Permutation (l l' : list Q) :
  l ≡ₚ l' -> (Num.sum l == Num.sum l')%Q.
Proof.
  induction 1 as [|x l l' _ IH|x y l|l l' l'' _ IH1 _ IH2].
  - reflexivity.
  - now rewrite !sum_cons, IH.
  - rewrite !sum_cons. ring.
  - now rewrite IH1.
Qed.

Lemma fold_Zadd_acc (l : list Z) (a : Z) :
  fold_left Z.add l a = (a + fold_left Z.add l 0)%Z.
Proof.
  revert a. induction l as [|x l IH]; intros a; cbn [fold_left]; [lia|].
  rewrite (IH (a + x)%Z), (IH (0 + x)%Z). lia.
Qed.

Lemma sum_int_cons (x : Z) (l : list Z) :
  Num.sum_int (x :: l) = (x + Num.sum_int l)%Z.
Proof. unfold Num.sum_int. cbn [fold_left]. now rewrite fold_Zadd_acc. Qed.

Lemma sum_int_Permutation (l l' : list Z) :
  l ≡ₚ l' -> Num.sum_int l = Num.sum_int l'.
Proof.
  induction 1 as [|x l l' _ IH|x y l|l l' l'' _ IH1 _ IH2].
  - reflexivity.
  - now rewrite !sum_int_cons, IH.
  - rewrite !sum_int_cons. lia.
  - congruence.
Qed.

Lemma ones_if_on_cons (r : device) (rooms : list device) :
  Num.sum_int (ones_if_on (r :: rooms))
  = (on_count r + Num.sum_int (ones_if_on rooms))%Z.
Proof.
  unfold ones_if_on, on_count.
  destruct (ac_status r) eqn:Hon.
  - rewrite filter_cons_True by assumption.
    now rewrite fmap_cons, sum_int_cons.
  - rewrite filter_cons_False by congruence. reflexivity.
Qed.

Lemma ones_if_on_Permutation (l l' : list device) :
  l ≡ₚ l' -> Num.sum_int (ones_if_on l) = Num.sum_int (ones_if_on l').
Proof.
  intros Hperm. apply sum_int_Permutation. unfold ones_if_on.
  now rewrite Hperm.
Qed.

Lemma values_empty : Dict.values ∅ = [].
Proof. unfold Dict.values. now rewrite map_to_list_empty. Qed.

Lemma values_insert_fresh (reg : registry) (k : string) (r : device) :
  reg !! k = None -> Dict.values (<[k := r]> reg) ≡ₚ r :: Dict.values reg.
Proof.
  intros Hk. unfold Dict.values.
  now rewrite (map_to_list_insert reg k r Hk).
Qed.

Section Aggregate.

Variable field : device -> Q.

Lemma sum_field_insert_fresh (reg : registry) (k : string) (r : device) :
  reg !! k = None ->
  (Num.sum (field <$> Dict.values (<[k := r]> reg))
   == field r + Num.sum (field <$> Dict.values reg))%Q.
Proof.
  intros Hk.
  rewrite (sum_Permutation _ (field <$> r :: Dict.values reg)).
  - rewrite fmap_cons. apply sum_cons.
  - now rewrite (values_insert_fresh reg k r Hk).
Qed.

Lemma sum_field_delete (reg : registry) (k : string) (r : device) :
  reg !! k = Some r ->
  (field r + Num.sum (field <$> Dict.values (delete k reg))
   == Num.sum (field <$> Dict.values reg))%Q.
Proof.
  intros Hk.
  rewrite <- (insert_delete_id reg k r Hk) at 2.
  rewrite sum_field_insert_fresh by apply lookup_delete_eq.
  reflexivity.
Qed.

End Aggregate.

Lemma active_insert_fresh (reg : registry) (k : string) (r : device) :
  reg !! k = None ->
  active_devices (aggregate (<[k := r]> reg))
  = (on_count r + active_devices (aggregate reg))%Z.
Proof.
  intros Hk. unfold aggregate. cbn [active_devices].
  rewrite (ones_if_on_Permutation _ _ (values_insert_fresh reg k r Hk)).
  apply ones_if_on_cons.
Qed.

Lemma active_delete (reg : registry) (k : string) (r : device) :
  reg !! k = Some r ->
  (on_count r + active_devices (aggregate (delete k reg)))%Z
  = active_devices (aggregate reg).
Proof.
  intros Hk.
  rewrite <- (insert_delete_id reg k r Hk) at 2.
  now rewrite active_insert_fresh by apply lookup_delete_eq.
Qed.


(** ** Deleting a device *)




(** ** The summary *)

(** C8: [aggregate] is a function of the current registry alone, and its
    totals are the sums over all records: they are zero on the empty
    registry and grow by exactly the fields of a record stored under a new
    id; likewise the active count grows by one for a record that is on; the
    device count is the size of the registry.  A status update is therefore
    visible in the next summary.  On a registry holding exactly Room101
    (10 kWh, on) and Room102 (5 kWh, off) with cost and carbon derived at
    8.5 and 500 per kWh, the summary is 15 kWh, 127.5, 7500, 1 active of
    2 devices. *)
Theorem aggregate_spec :
  ((total_energy (aggregate ∅) == 0)%Q /\
   (total_cost (aggregate ∅) == 0)%Q /\
   (total_carbon (aggregate ∅) == 0)%Q /\
   active_devices (aggregate ∅) = 0%Z /\
   device_count (aggregate ∅) = 0) /\
  (forall (reg : registry) k r, reg !! k = None ->
     let s := aggregate reg in
     let s' := aggregate (<[k := r]> reg) in
     (total_energy s' == energy_kwh r + total_energy s)%Q /\
     (total_cost s' == cost_taka r + total_cost s)%Q /\
     (total_carbon s' == carbon_emissions r + total_carbon s)%Q /\
     active_devices s' = (on_count r + active_devices s)%Z /\
     device_count s' = S (device_count s)) /\
  (forall reg : registry, device_count (aggregate reg) = size reg) /\
  (forall (reg : registry) device_id status r,
     reg !! device_id = Some r ->
     (active_devices
        (aggregate (exec (update_device_status device_id status) reg))
      + on_count r
      = active_devices (aggregate reg) + (if status then 1 else 0))%Z) /\
  (forall r1 r2 : device,
     (energy_kwh r1 == 10)%Q -> ac_status r1 = true ->
     (cost_taka r1 == energy_kwh r1 * 8.5)%Q ->
     (carbon_emissions r1 == energy_kwh r1 * 500)%Q ->
     (energy_kwh r2 == 5)%Q -> ac_status r2 = false ->
     (cost_taka r2 == energy_kwh r2 * 8.5)%Q ->
     (carbon_emissions r2 == energy_kwh r2 * 500)%Q ->
     let s := aggregate (<["Room102" := r2]> (<["Room101" := r1]> ∅)) in
     (total_energy s == 15)%Q /\ active_devices s = 1%Z /\
     device_count s = 2 /\
     (total_cost s == 127.5)%Q /\ (total_carbon s == 7500)%Q).
Proof.
  assert (Hempty :
    (total_energy (aggregate ∅) == 0)%Q /\
    (total_cost (aggregate ∅) == 0)%Q /\
    (total_carbon (aggregate ∅) == 0)%Q /\
    active_devices (aggregate ∅) = 0%Z /\
    device_count (aggregate ∅) = 0).
  { unfold aggregate, Dict.len. simpl. rewrite values_empty.
    repeat split; reflexivity. }
  assert (Hinsert : forall (reg : registry) k r, reg !! k = None ->
     (total_energy (aggregate (<[k := r]> reg))
        == energy_kwh r + total_energy (aggregate reg))%Q /\
     (total_cost (aggregate (<[k := r]> reg))
        == cost_taka r + total_cost (aggregate reg))%Q /\
     (total_carbon (aggregate (<[k := r]> reg))
        == carbon_emissions r + total_carbon (aggregate reg))%Q /\
     active_devices (aggregate (<[k := r]> reg))
        = (on_count r + active_devices (aggregate reg))%Z /\
     device_count (aggregate (<[k := r]> reg))
        = S (device_count (aggregate reg))).
  { intros reg k r Hk.
    split; [apply (sum_field_insert_fresh energy_kwh reg k r Hk)|].
    split; [apply (sum_field_insert_fresh cost_taka reg k r Hk)|].
    split; [apply (sum_field_insert_fresh carbon_emissions reg k r Hk)|].
    split; [apply (active_insert_fresh reg k r Hk)|].
    unfold aggregate, Dict.len. simpl. now apply map_size_insert_None. }
  split; [exact Hempty|]. split; [exact Hinsert|].
  split; [reflexivity|]. split.
  - intros reg device_id status r Hr. unfold exec.
    rewrite (update_present reg device_id status r Hr). cbn [snd].
    rewrite <- insert_delete_eq.
    rewrite active_insert_fresh by apply lookup_delete_eq.
    rewrite <- (active_delete reg device_id r Hr).
    unfold on_count at 1. cbn [ac_status set_ac_status].
    destruct status; lia.
  - intros r1 r2 He1 Hon1 Hc1 Hg1 He2 Hon2 Hc2 Hg2 s. subst s.
    assert (Hfresh1 : (∅ : registry) !! "Room101" = None)
      by apply lookup_empty.
    assert (Hfresh2 : (<["Room101" := r1]> ∅ : registry) !! "Room102" = None)
      by (rewrite lookup_insert_ne by discriminate; apply lookup_empty).
    destruct (Hinsert ∅ "Room101" r1 Hfresh1) as (E1 & C1 & G1 & A1 & N1).
    destruct (Hinsert (<["Room101" := r1]> ∅) "Room102" r2 Hfresh2)
      as (E2 & C2 & G2 & A2 & N2).
    destruct Hempty as (E0 & C0 & G0 & A0 & N0).
    rewrite E2, C2, G2, A2, N2, E1, C1, G1, A1, N1, E0, C0, G0, A0, N0.
    unfold on_count. rewrite Hon1, Hon2, Hc1, Hc2, Hg1, Hg2, He1, He2.
    repeat split; reflexivity.
Qed.

Lemma aggregate_spec_witness :
  (energy_kwh room101 == 10)%Q /\ ac_status room101 = true /\
  (energy_kwh room102 == 5)%Q /\ ac_status room102 = false /\
  (total_energy (aggregate scenario_registry) == 15)%Q /\
  active_devices (aggregate scenario_registry) = 1%Z /\
  device_count (aggregate scenario_registry) = 2 /\
  (total_cost (aggregate scenario_registry) == 127.5)%Q /\
  (total_carbon (aggregate scenario_registry) == 7500)%Q.
Proof.
  assert (He1 : (energy_kwh room101 == 10)%Q) by reflexivity.
  assert (He2 : (energy_kwh room102 == 5)%Q) by reflexivity.
  assert (Hon1 : ac_status room101 = true) by reflexivity.
  assert (Hon2 : ac_status room102 = false) by reflexivity.
  repeat (split; [assumption|]).
  destruct aggregate_spec as (_ & _ & _ & _ & Hscenario).
  apply (Hscenario room101 room102 He1 Hon1); try assumption; reflexivity.
Defined.

(** ** Keys and stored ids *)

Lemma keys_match_empty : keys_match ∅.
Proof. intros k r Hk. now rewrite lookup_empty in Hk. Qed.

Lemma keys_match_insert (reg : registry) (k : string) (r : device) :
  room_id r = k -> keys_match reg -> keys_match (<[k := r]> reg).
Proof.
  intros Hid Hreg k' r' Hk'.
  destruct (decide (k = k')) as [<-|Hne].
  - rewrite lookup_insert_eq in Hk'. congruence.
  - rewrite lookup_insert_ne in Hk' by assumption. now apply Hreg.
Qed.

Lemma keys_match_delete (reg : registry) (k : string) :
  keys_match reg -> keys_match (delete k reg).
Proof.
  intros Hreg k' r' Hk'.
  destruct (decide (k = k')) as [<-|Hne].
  - now rewrite lookup_delete_eq in Hk'.
  - rewrite lookup_delete_ne in Hk' by assumption. now apply Hreg.
Qed.

Lemma synthesize_key (rnd_n : Draw) (fl room : string) :
  room_id (snd (synthesize fl room rnd_n)) = fst (synthesize fl room rnd_n).
Proof. reflexivity. Qed.

Lemma keys_match_generate_rooms rnd fl rooms n (data : registry) :
  keys_match data -> keys_match (snd (generate_rooms rnd fl rooms n data)).
Proof.
  revert n data. induction rooms as [|room rest IH]; intros n data Hdata.
  - exact Hdata.
  - cbn [generate_rooms].
    destruct (synthesize fl room (rnd n)) as [k r] eqn:Hsyn.
    apply IH, keys_match_insert; [|exact Hdata].
    pose proof (synthesize_key (rnd n) fl room) as Hkey.
    now rewrite Hsyn in Hkey.
Qed.

Lemma keys_match_generate_floors rnd structure n (data : registry) :
  keys_match data ->
  keys_match (snd (generate_floors rnd structure n data)).
Proof.
  revert n data.
  induction structure as [|[fl rooms] rest IH]; intros n data Hdata.
  - exact Hdata.
  - cbn [generate_floors].
    pose proof (keys_match_generate_rooms rnd fl rooms n data Hdata) as Hrooms.
    destruct (generate_rooms rnd fl rooms n data) as [n' data'].
    now apply IH.
Qed.

Lemma keys_match_perform (a : action) (reg : registry) :
  keys_match reg -> keys_match (perform a reg).
Proof.
  intros Hreg. destruct a as [id name fl ty st pw | id status | id];
    cbn [perform]; unfold exec.
  - destruct (truthy id && truthy name) eqn:Hfilled.
    + apply andb_true_iff in Hfilled as [Hid Hname].
      apply truthy_spec in Hid, Hname.
      rewrite (add_accepted reg id name fl ty st pw Hid Hname).
      now apply keys_match_insert.
    + rewrite add_rejected; [exact Hreg|].
      apply andb_false_iff in Hfilled as [Hid|Hname]; [left|right].
      * destruct id; [reflexivity|discriminate].
      * destruct name; [reflexivity|discriminate].
  - destruct (reg !! id) as [r|] eqn:Hr.
    + rewrite (update_present reg id status r Hr).
      apply keys_match_insert; [|exact Hreg]. exact (Hreg id r Hr).
    + now rewrite (update_absent reg id status Hr).
  - destruct (reg !! id) as [r|] eqn:Hr.
    + rewrite (delete_present reg id r Hr). now apply keys_match_delete.
    + now rewrite (delete_absent reg id Hr).
Qed.

(** C9: every record sits under its own [room_id].  This holds of the
    generated registry, is preserved by adding, by a status update and by
    deleting, and so holds in every registry a session can reach. *)
Theorem keys_match_reachable :
  (forall rnd, keys_match (generate_synthetic_data rnd)) /\
  (forall a reg, keys_match reg -> keys_match (perform a reg)) /\
  (forall reg, reachable reg -> keys_match reg).
Proof.
  assert (Hinit : forall rnd, keys_match (generate_synthetic_data rnd)).
  { intros rnd. apply keys_match_generate_floors, keys_match_empty. }
  split; [exact Hinit|]. split; [exact keys_match_perform|].
  induction 1 as [rnd | a reg _ IH].
  - apply Hinit.
  - now apply keys_match_perform.
Qed.

Lemma keys_match_reachable_witness :
  let reg :=
    perform (Delete "Room102")
      (perform (SetStatus "Room101" false)
         (perform (Add "Lab1" "Lab" "1" "Light" "ON" 60)
            (generate_synthetic_data sample_rnd))) in
  reachable reg /\ keys_match reg.
Proof.
  intros reg.
  assert (Hreach : reachable reg)
    by exact (reach_step _ _ (reach_step _ _ (reach_step _ _
                (reach_init sample_rnd)))).
  split; [exact Hreach|].
  destruct keys_match_reachable as (_ & _ & Hinv).
  exact (Hinv reg Hreach).
Defined.

(** ** Initial generation *)

Section GenerationFacts.

Variable rnd : nat -> Draw.

Implicit Types (rooms : list (string * string)) (data : registry).

Lemma generate_rooms_flat fl (names : list string) n data :
  generate_rooms rnd fl names n data
  = generate_flat rnd (map (pair fl) names) n data.
Proof.
  revert n data. induction names as [|room rest IH]; intros n data.
  - reflexivity.
  - cbn [generate_rooms map generate_flat].
    destruct (synthesize fl room (rnd n)) as [k r]. apply IH.
Qed.

Lemma generate_flat_app rooms1 rooms2 n data :
  generate_flat rnd (rooms1 ++ rooms2) n data
  = generate_flat rnd rooms2
      (fst (generate_flat rnd rooms1 n data))
      (snd (generate_flat rnd rooms1 n data)).
Proof.
  revert n data. induction rooms1 as [|[fl room] rest IH]; intros n data.
  - reflexivity.
  - cbn [app generate_flat].
    destruct (synthesize fl room (rnd n)) as [k r]. apply IH.
Qed.

Lemma generate_floors_flat structure n data :
  generate_floors rnd structure n data
  = generate_flat rnd (rooms_of structure) n data.
Proof.
  revert n data.
  induction structure as [|[fl names] rest IH]; intros n data.
  - reflexivity.
  - cbn [generate_floors rooms_of flat_map].
    rewrite generate_flat_app, generate_rooms_flat.
    destruct (generate_flat rnd (map (pair fl) names) n data) as [n' data'].
    apply IH.
Qed.

Lemma generate_flat_lookup_other rooms n data k :
  k ∉ ids_of rooms ->
  snd (generate_flat rnd rooms n data) !! k = data !! k.
Proof.
  revert n data. induction rooms as [|[fl room] rest IH]; intros n data Hk.
  - reflexivity.
  - cbn [generate_flat].
    cbn [ids_of map snd] in Hk. fold (ids_of rest) in Hk.
    apply not_elem_of_cons in Hk as [Hne Hrest].
    unfold synthesize. rewrite (IH _ _ Hrest).
    now apply lookup_insert_ne.
Qed.

Lemma generate_flat_lookup rooms n data i fl room :
  NoDup (ids_of rooms) -> rooms !! i = Some (fl, room) ->
  snd (generate_flat rnd rooms n data) !! replace_space room
  = Some (snd (synthesize fl room (rnd (n + i)))).
Proof.
  revert n data i.
  induction rooms as [|[fl0 room0] rest IH]; intros n data i Hnodup Hi.
  - discriminate.
  - cbn [ids_of map snd] in Hnodup. fold (ids_of rest) in Hnodup.
    apply NoDup_cons in Hnodup as [Hfresh Hnodup].
    cbn [generate_flat]. destruct i as [|j].
    + injection Hi as -> ->. unfold synthesize at 1.
      rewrite generate_flat_lookup_other by exact Hfresh.
      rewrite Nat.add_0_r. apply lookup_insert_eq.
    + unfold synthesize at 1.
      rewrite (IH (S n) _ j Hnodup Hi).
      now replace (S n + j) with (n + S j) by lia.
Qed.

Lemma generate_flat_origin rooms n data k r :
  snd (generate_flat rnd rooms n data) !! k = Some r ->
  data !! k = Some r \/
  exists i fl room,
    rooms !! i = Some (fl, room) /\
    (k, r) = synthesize fl room (rnd (n + i)).
Proof.
  revert n data. induction rooms as [|[fl0 room0] rest IH]; intros n data Hk.
  - now left.
  - cbn [generate_flat] in Hk.
    destruct (synthesize fl0 room0 (rnd n)) as [k0 r0] eqn:Hsyn.
    destruct (IH _ _ Hk) as [Hdata | (i & fl & room & Hi & Hkr)].
    + destruct (decide (k0 = k)) as [<-|Hne].
      * rewrite lookup_insert_eq in Hdata. injection Hdata as <-.
        right. exists 0, fl0, room0. split; [reflexivity|].
        now rewrite Nat.add_0_r, Hsyn.
      * rewrite lookup_insert_ne in Hdata by assumption. now left.
    + right. exists (S i), fl, room. split; [exact Hi|].
      now replace (n + S i) with (S n + i) by lia.
Qed.

Lemma generate_flat_dom rooms n data :
  dom (snd (generate_flat rnd rooms n data))
  = list_to_set (ids_of rooms) ∪ dom data.
Proof.
  revert n data. induction rooms as [|[fl room] rest IH]; intros n data.
  - cbn. now rewrite union_empty_l_L.
  - cbn [generate_flat]. unfold synthesize. rewrite IH, dom_insert_L.
    cbn [ids_of map snd list_to_set]. fold (ids_of rest).
    now rewrite (assoc_L (∪)), (comm_L (∪) (list_to_set _)).
Qed.

Lemma generate_flat_size rooms n :
  NoDup (ids_of rooms) ->
  size (snd (generate_flat rnd rooms n ∅)) = length rooms.
Proof.
  intros Hnodup.
  rewrite <- size_dom, generate_flat_dom, dom_empty_L, union_empty_r_L.
  rewrite size_list_to_set by exact Hnodup.
  unfold ids_of. now rewrite length_map.
Qed.

End GenerationFacts.

(** ** Rounding to two decimals *)

Lemma round_half_even_near (x : Q) :
  (x - (1 # 2) <= inject_Z (Num.round_half_even x)
   /\ inject_Z (Num.round_half_even x) <= x + (1 # 2))%Q.
Proof.
  unfold Num.round_half_even.
  pose proof (Qfloor_le x) as Hlo. pose proof (Qlt_floor x) as Hhi.
  rewrite inject_Z_plus in Hhi. change (inject_Z 1) with 1%Q in Hhi.
  destruct (Qcompare_spec (x - inject_Z (Qfloor x)) (1 # 2))
    as [Heq | Hlt | Hgt].
  - destruct (Z.even (Qfloor x)).
    + split; lra.
    + rewrite inject_Z_plus. change (inject_Z 1) with 1%Q. split; lra.
  - split; lra.
  - rewrite inject_Z_plus. change (inject_Z 1) with 1%Q. split; lra.
Qed.

Lemma round2_near (x : Q) :
  (x - (1 # 200) <= Num.round2 x /\ Num.round2 x <= x + (1 # 200))%Q.
Proof.
  unfold Num.round2.
  destruct (round_half_even_near (x * 100)) as [Hlo Hhi].
  set (z := inject_Z (Num.round_half_even (x * 100))) in *.
  split.
  - apply Qle_shift_div_l; [reflexivity | lra].
  - apply Qle_shift_div_r; [reflexivity | lra].
Qed.

Lemma round2_error (x : Q) : (Qabs (Num.round2 x - x) <= 1 # 200)%Q.
Proof.
  destruct (round2_near x). apply Qabs_Qle_condition. split; lra.
Qed.

(** ** Generated records *)

Lemma rooms_of_elem (structure : list (string * list string)) fl room :
  (fl, room) ∈ rooms_of structure <->
  exists names, (fl, names) ∈ structure /\ room ∈ names.
Proof.
  unfold rooms_of. rewrite list_elem_of_In, in_flat_map. split.
  - intros ([fl' names] & Hin & Hroom).
    apply in_map_iff in Hroom as (room' & [= -> ->] & Hroom).
    exists names. now rewrite !list_elem_of_In.
  - intros (names & Hin & Hroom). exists (fl, names).
    apply list_elem_of_In in Hin. apply list_elem_of_In in Hroom.
    split; [exact Hin|]. apply in_map_iff. now exists room.
Qed.

Lemma generate_synthetic_data_flat rnd :
  generate_synthetic_data rnd
  = snd (generate_flat rnd (rooms_of get_building_structure) 0 ∅).
Proof. unfold generate_synthetic_data. now rewrite generate_floors_flat. Qed.

Lemma generated_origin rnd k r :
  generate_synthetic_data rnd !! k = Some r ->
  exists i fl room,
    rooms_of get_building_structure !! i = Some (fl, room) /\
    (k, r) = synthesize fl room (rnd i).
Proof.
  rewrite generate_synthetic_data_flat. intros Hk.
  apply generate_flat_origin in Hk as [Hempty | Hsyn].
  - now rewrite lookup_empty in Hempty.
  - exact Hsyn.
Qed.

Lemma building_ids_NoDup : NoDup (ids_of (rooms_of get_building_structure)).
Proof. apply (bool_decide_unpack _). vm_compute. reflexivity. Qed.

Lemma building_names_spaces_only :
  Forall (fun fr : string * string =>
            replace_space (snd fr) = remove_whitespace (snd fr))
    (rooms_of get_building_structure).
Proof. apply (bool_decide_unpack _). vm_compute. reflexivity. Qed.

Lemma round2_tolerates_error (x x' : Q) :
  (Qabs (x' - x) <= 0.001)%Q -> (Qabs (Num.round2 x' - x) <= 0.006)%Q.
Proof.
  intros Hclose. apply Qabs_Qle_condition in Hclose as [Hlo Hhi].
  destruct (round2_near x') as [Hr1 Hr2].
  apply Qabs_Qle_condition. split; lra.
Qed.

(** C2, as stated, fails: the stored cost and carbon are rounded from the
    unrounded energy draw, not computed from the stored (rounded) energy.
    Take a power draw of 800 and the energy draw 5 + 20 * u for
    u = 1759218604442 / 2^53, which is the binary float
    5.00390625 + 2^-50.  The record of Room 101 stores energy 5.0, cost
    42.53 and carbon 2501.95, not 42.5 and 2500; the products are far
    from a rounding tie, so binary rounding does not change what is
    stored. *)
Lemma generated_cost_differs_from_stored_energy :
  (forall n, draw_in_range (tie_free_rnd n)) /\
  exists r,
    generate_synthetic_data tie_free_rnd !! "Room101" = Some r /\
    (energy_kwh r == 5)%Q /\
    (cost_taka r == 42.53)%Q /\ ~ (cost_taka r == energy_kwh r * 8.5)%Q /\
    (carbon_emissions r == 2501.95)%Q /\
    ~ (carbon_emissions r == energy_kwh r * 500)%Q.
Proof.
  split.
  - intros n. repeat split; vm_compute; congruence.
  - exists (snd (synthesize "Ground" "Room 101" tie_free_draw)).
    repeat split; vm_compute; congruence.
Qed.

(** C2, amended: every generated record (for random outcomes within their
    ranges) belongs to a room of the building and is made from that
    room's own draws.  Its power is the power draw, between 800 and 2000
    and so not negative; its voltage is 220; its stored current is within
    0.005 of power / voltage.  With e the unrounded energy draw of the
    room, the stored energy, cost and carbon are within 0.006 of e,
    e * 8.5 and e * 500.  So the stored cost is within 0.05 of stored
    energy * 8.5 and the stored carbon within 2.6 of stored energy * 500,
    without being equal to them.  Every bound leaves room for the binary
    rounding of the float products ([round2_tolerates_error]). *)
Theorem generated_record_fields (rnd : nat -> Draw) (k : string) (r : device) :
  (forall n, draw_in_range (rnd n)) ->
  generate_synthetic_data rnd !! k = Some r ->
  exists i : nat,
    rooms_of get_building_structure !! i = Some (floor r, room_name r) /\
    power r = randint_800_2000 (rnd i) /\
    (0 <= power r)%Z /\ (800 <= power r <= 2000)%Z /\ voltage r = 220%Z /\
    (Qabs (current r - inject_Z (power r) / inject_Z (voltage r))
       <= 0.005)%Q /\
    (Qabs (energy_kwh r - uniform_5_25 (rnd i)) <= 0.006)%Q /\
    (Qabs (cost_taka r - uniform_5_25 (rnd i) * 8.5) <= 0.006)%Q /\
    (Qabs (carbon_emissions r - uniform_5_25 (rnd i) * 500) <= 0.006)%Q /\
    (Qabs (cost_taka r - energy_kwh r * 8.5) <= 0.05)%Q /\
    (Qabs (carbon_emissions r - energy_kwh r * 500) <= 2.6)%Q.
Proof.
  intros Hrange Hk.
  destruct (generated_origin rnd k r Hk) as (i & fl & room & Hi & Hsyn).
  destruct (Hrange i) as (Hpower & Hlo & Hhi).
  unfold synthesize in Hsyn. injection Hsyn as _ ->.
  exists i.
  cbn [floor room_name power voltage current energy_kwh cost_taka
       carbon_emissions].
  set (p := randint_800_2000 (rnd i)) in *.
  set (e := uniform_5_25 (rnd i)) in *.
  split; [exact Hi|]. split; [reflexivity|].
  split; [lia|]. split; [exact Hpower|]. split; [reflexivity|].
  pose proof (round2_near (inject_Z p / inject_Z 220)) as [Hc1 Hc2].
  pose proof (round2_near e) as [He1 He2].
  pose proof (round2_near (e * 8.5)) as [Ht1 Ht2].
  pose proof (round2_near (e * 500)) as [Hg1 Hg2].
  repeat split; apply Qabs_Qle_condition; split; lra.
Qed.

Lemma generated_record_fields_witness :
  (forall n, draw_in_range (tie_free_rnd n)) /\
  generate_synthetic_data tie_free_rnd !! "Room101"
  = Some (snd (synthesize "Ground" "Room 101" tie_free_draw)) /\
  (0 <= power (snd (synthesize "Ground" "Room 101" tie_free_draw)))%Z /\
  (Qabs (cost_taka (snd (synthesize "Ground" "Room 101" tie_free_draw))
         - energy_kwh (snd (synthesize "Ground" "Room 101" tie_free_draw))
           * 8.5)
   <= 0.05)%Q.
Proof.
  assert (Hrange : forall n, draw_in_range (tie_free_rnd n))
    by (intros n; repeat split; vm_compute; congruence).
  assert (Hk : generate_synthetic_data tie_free_rnd !! "Room101"
               = Some (snd (synthesize "Ground" "Room 101" tie_free_draw)))
    by (vm_compute; reflexivity).
  split; [exact Hrange|]. split; [exact Hk|].
  destruct (generated_record_fields tie_free_rnd "Room101" _ Hrange Hk)
    as (i & _ & _ & Hpos & _ & _ & _ & _ & _ & _ & Hcost & _).
  split; [exact Hpos | exact Hcost].
Defined.

(** C3: the generated registry holds exactly one record per room of the
    building structure: 19 rooms, 19 records.  Each room's record is keyed
    by the room name with its spaces removed (which for these names is the
    name with its whitespace removed) and carries that id, the room name
    and the floor; the 19 ids are pairwise distinct; and the registry
    holds nothing else. *)
Theorem generate_one_record_per_room (rnd : nat -> Draw) :
  let reg := generate_synthetic_data rnd in
  let rooms := rooms_of get_building_structure in
  length rooms = 19 /\
  size reg = length rooms /\
  NoDup (ids_of rooms) /\
  (forall fl names room,
     (fl, names) ∈ get_building_structure -> room ∈ names ->
     replace_space room = remove_whitespace room /\
     exists r,
       reg !! replace_space room = Some r /\
       room_id r = replace_space room /\ room_name r = room /\
       floor r = fl) /\
  (forall k r,
     reg !! k = Some r ->
     k = replace_space (room_name r) /\
     exists names,
       (floor r, names) ∈ get_building_structure /\ room_name r ∈ names).
Proof.
  intros reg rooms. subst reg rooms.
  split; [reflexivity|].
  split; [rewrite generate_synthetic_data_flat;
          apply generate_flat_size, building_ids_NoDup|].
  split; [apply building_ids_NoDup|]. split.
  - intros fl names room Hfloor Hroom.
    assert (Hin : (fl, room) ∈ rooms_of get_building_structure)
      by (apply rooms_of_elem; eauto).
    split.
    + pose proof building_names_spaces_only as Hall.
      rewrite Forall_forall in Hall. exact (Hall (fl, room) Hin).
    + apply list_elem_of_lookup in Hin as [i Hi].
      exists (snd (synthesize fl room (rnd (0 + i)))).
      split; [|now repeat split].
      rewrite generate_synthetic_data_flat.
      now apply generate_flat_lookup; [apply building_ids_NoDup|].
  - intros k r Hk.
    destruct (generated_origin rnd k r Hk) as (i & fl & room & Hi & Hsyn).
    unfold synthesize in Hsyn. injection Hsyn as -> ->. cbn.
    split; [reflexivity|].
    apply rooms_of_elem, list_elem_of_lookup. eauto.
Qed.

Lemma generate_one_record_per_room_witness :
  ("Ground", ["Room 101"; "Room 102"; "Room 103"]) ∈ get_building_structure /\
  "Room 102" ∈ ["Room 101"; "Room 102"; "Room 103"] /\
  size (generate_synthetic_data sample_rnd) = 19 /\
  exists r,
    generate_synthetic_data sample_rnd !! "Room102" = Some r /\
    room_name r = "Room 102" /\ floor r = "Ground".
Proof.
  assert (Hfloor : ("Ground", ["Room 101"; "Room 102"; "Room 103"])
                   ∈ get_building_structure) by apply list_elem_of_here.
  assert (Hroom : "Room 102" ∈ ["Room 101"; "Room 102"; "Room 103"])
    by apply list_elem_of_further, list_elem_of_here.
  split; [exact Hfloor|]. split; [exact Hroom|].
  destruct (generate_one_record_per_room sample_rnd)
    as (Hcount & Hsize & _ & Hrooms & _).
  split; [now rewrite Hsize|].
  destruct (Hrooms _ _ _ Hfloor Hroom) as (_ & r & Hr & _ & Hname & Hfl).
  exists r. split; [exact Hr|]. split; [exact Hname | exact Hfl].
Defined.

(** * Further properties of the registry handlers *)

(** ** The registry effect of each handler *)

Lemma set_ac_status_same (r : device) : set_ac_status (ac_status r) r = r.
Proof. now destruct r. Qed.

Lemma set_ac_status_overwrite (b1 b2 : bool) (r : device) :
  set_ac_status b2 (set_ac_status b1 r) = set_ac_status b2 r.
Proof. reflexivity. Qed.

Lemma exec_update_alter (reg : registry) (device_id : string) (status : bool) :
  exec (update_device_status device_id status) reg
  = alter (set_ac_status status) device_id reg.
Proof.
  unfold exec. destruct (reg !! device_id) as [r|] eqn:Hr.
  - rewrite (update_present reg device_id status r Hr). cbn [snd].
    apply map_eq. intros k. destruct (decide (device_id = k)) as [<-|Hne].
    + now rewrite lookup_insert_eq, lookup_alter_eq, Hr.
    + now rewrite lookup_insert_ne, lookup_alter_ne.
  - rewrite (update_absent reg device_id status Hr). cbn [snd].
    apply map_eq. intros k. destruct (decide (device_id = k)) as [<-|Hne].
    + now rewrite lookup_alter_eq, Hr.
    + now rewrite lookup_alter_ne.
Qed.

Lemma eval_update (reg : registry) (device_id : string) (status : bool) :
  eval (update_device_status device_id status) reg
  = Ok (bool_decide (is_Some (reg !! device_id))).
Proof.
  unfold eval. destruct (reg !! device_id) as [r|] eqn:Hr.
  - rewrite (update_present reg device_id status r Hr).
    now rewrite bool_decide_true by eauto.
  - rewrite (update_absent reg device_id status Hr).
    rewrite bool_decide_false; [reflexivity | intros [? ?]; discriminate].
Qed.

Lemma exec_delete (reg : registry) (device_id : string) :
  exec (delete_button device_id) reg = delete device_id reg.
Proof.
  unfold exec. destruct (reg !! device_id) as [r|] eqn:Hr.
  - now rewrite (delete_present reg device_id r Hr).
  - rewrite (delete_absent reg device_id Hr). cbn [snd].
    symmetry. now apply delete_id.
Qed.

Lemma toggle_present (reg : registry) (device_id : string) (r : device) :
  reg !! device_id = Some r ->
  toggle_ac_button device_id reg
  = (Ok [St_rerun],
     <[device_id := set_ac_status (negb (ac_status r)) r]> reg).
Proof.
  intros Hr. unfold toggle_ac_button, Dict.contains, Dict.getitem,
    mbind, mret, session_bind, session_ret, bind, ret.
  rewrite bool_decide_true by eauto. rewrite Hr.
  now rewrite (update_present reg device_id _ r Hr).
Qed.

Lemma toggle_absent (reg : registry) (device_id : string) :
  reg !! device_id = None -> toggle_ac_button device_id reg = (Ok [], reg).
Proof.
  intros Hr. unfold toggle_ac_button, Dict.contains,
    mbind, mret, session_bind, session_ret, bind, ret.
  rewrite bool_decide_false; [reflexivity|].
  rewrite Hr. intros [? ?]; discriminate.
Qed.

(** ** Status updates compose *)

(** X1: of two successive status updates of one device the last one wins:
    the pair returns what the second returns alone and leaves the registry
    the second leaves alone. *)
Theorem update_device_status_last_wins
    (reg : registry) (device_id : string) (first_ last_ : bool) :
  (update_device_status device_id first_;;
   update_device_status device_id last_) reg
  = update_device_status device_id last_ reg.
Proof.
  unfold mbind, session_bind, bind.
  destruct (reg !! device_id) as [r|] eqn:Hr.
  - rewrite (update_present reg device_id first_ r Hr).
    rewrite (update_present reg device_id last_ r Hr).
    erewrite update_present by apply lookup_insert_eq.
    now rewrite set_ac_status_overwrite, insert_insert_eq.
  - rewrite (update_absent reg device_id first_ Hr).
    reflexivity.
Qed.

(** X2: status updates of two different devices commute. *)
Theorem update_device_status_commute
    (reg : registry) (id1 id2 : string) (b1 b2 : bool) :
  id1 <> id2 ->
  exec (update_device_status id1 b1) (exec (update_device_status id2 b2) reg)
  = exec (update_device_status id2 b2)
      (exec (update_device_status id1 b1) reg)
  /\ eval (update_device_status id1 b1)
       (exec (update_device_status id2 b2) reg)
     = eval (update_device_status id1 b1) reg.
Proof.
  intros Hne. split.
  - rewrite !exec_update_alter. apply map_eq. intros k.
    destruct (decide (id1 = k)) as [<-|Hk1].
    + now rewrite lookup_alter_eq, !(lookup_alter_ne _ _ id2) by congruence;
        rewrite lookup_alter_eq.
    + rewrite (lookup_alter_ne _ _ id1) by assumption.
      destruct (decide (id2 = k)) as [<-|Hk2].
      * now rewrite !lookup_alter_eq, lookup_alter_ne.
      * now rewrite !lookup_alter_ne.
  - rewrite !eval_update, exec_update_alter.
    now rewrite lookup_alter_ne by congruence.
Qed.

Lemma update_device_status_commute_witness :
  "Room101" <> "Room102" /\
  exec (update_device_status "Room101" false)
    (exec (update_device_status "Room102" true) scenario_registry)
  = exec (update_device_status "Room102" true)
      (exec (update_device_status "Room101" false) scenario_registry).
Proof.
  assert (Hne : "Room101" <> "Room102") by discriminate.
  split; [exact Hne|].
  apply (update_device_status_commute scenario_registry
           "Room101" "Room102" false true Hne).
Defined.

(** X3: a status update changes no total and no device count: energy,
    cost and carbon of the summary and the number of devices are as
    before, whether or not the id exists. *)
Theorem update_device_status_keeps_totals
    (reg : registry) (device_id : string) (status : bool) :
  let reg' := exec (update_device_status device_id status) reg in
  (total_energy (aggregate reg') == total_energy (aggregate reg))%Q /\
  (total_cost (aggregate reg') == total_cost (aggregate reg))%Q /\
  (total_carbon (aggregate reg') == total_carbon (aggregate reg))%Q /\
  device_count (aggregate reg') = device_count (aggregate reg) /\
  dom reg' = dom reg.
Proof.
  intros reg'. subst reg'. unfold exec.
  destruct (reg !! device_id) as [r|] eqn:Hr.
  - rewrite (update_present reg device_id status r Hr). cbn [snd].
    assert (Hfield : forall field : device -> Q,
      field (set_ac_status status r) = field r ->
      (Num.sum (field <$> Dict.values
                  (<[device_id := set_ac_status status r]> reg))
       == Num.sum (field <$> Dict.values reg))%Q).
    { intros field Hsame. rewrite <- insert_delete_eq.
      rewrite sum_field_insert_fresh by apply lookup_delete_eq.
      rewrite Hsame. apply (sum_field_delete field reg device_id r Hr). }
    assert (Hdom : dom (<[device_id := set_ac_status status r]> reg)
                   = dom reg) by (apply dom_insert_lookup_L; eauto).
    unfold aggregate, Dict.len.
    cbn [total_energy total_cost total_carbon device_count].
    split; [now apply Hfield|]. split; [now apply Hfield|].
    split; [now apply Hfield|].
    split; [now rewrite <- !size_dom, Hdom | exact Hdom].
  - rewrite (update_absent reg device_id status Hr). cbn [snd].
    now repeat split.
Qed.

(** ** The toggle button of the room details page *)

(** X4: pressing the toggle button flips the status of a device that is
    present, and the button's label names the state the press produces;
    on an absent id the press does nothing; and two presses in succession
    restore the registry exactly. *)
Theorem toggle_ac_button_flips (reg : registry) (device_id : string) :
  (forall r, reg !! device_id = Some r ->
     exists r',
       exec (toggle_ac_button device_id) reg !! device_id = Some r' /\
       ac_status r' = negb (ac_status r) /\
       (toggle_label r = "Turn ON AC" <-> ac_status r' = true)) /\
  (reg !! device_id = None ->
     toggle_ac_button device_id reg = (Ok [], reg)) /\
  exec (toggle_ac_button device_id) (exec (toggle_ac_button device_id) reg)
  = reg.
Proof.
  unfold exec. destruct (reg !! device_id) as [r|] eqn:Hr.
  - rewrite (toggle_present reg device_id r Hr). cbn [snd].
    split; [|split; [discriminate|]].
    + intros r0 [= <-]. exists (set_ac_status (negb (ac_status r)) r).
      split; [apply lookup_insert_eq|]. split; [reflexivity|].
      unfold toggle_label. cbn [ac_status set_ac_status].
      destruct (ac_status r); cbn; split; congruence.
    + erewrite toggle_present by apply lookup_insert_eq. cbn [snd].
      cbn [ac_status set_ac_status]. rewrite negb_involutive.
      rewrite insert_insert_eq.
      change (set_ac_status (ac_status r)
                (set_ac_status (negb (ac_status r)) r))
        with (set_ac_status (ac_status r) r).
      rewrite set_ac_status_same. now apply insert_id.
  - rewrite (toggle_absent reg device_id Hr). cbn [snd].
    split; [intros r0 [=]|]. split; [reflexivity|].
    now rewrite (toggle_absent reg device_id Hr).
Qed.

Lemma toggle_ac_button_flips_witness :
  scenario_registry !! "Room102" = Some room102 /\
  exists r',
    exec (toggle_ac_button "Room102") scenario_registry !! "Room102"
    = Some r' /\
    ac_status r' = true.
Proof.
  assert (Hin : scenario_registry !! "Room102" = Some room102)
    by reflexivity.
  split; [exact Hin|].
  destruct (toggle_ac_button_flips scenario_registry "Room102")
    as (Hflip & _ & _).
  destruct (Hflip room102 Hin) as (r' & Hr' & Hon & _).
  exists r'. split; [exact Hr' | exact Hon].
Defined.

(** ** Adding and deleting *)

(** X5: an accepted add of a new id stores exactly the submitted record,
    leaves every other record alone and grows the registry by one.  The
    new device has no usage yet, so the energy, cost and carbon totals of
    the summary stay as they were; the device count grows by one and the
    active count by one exactly when the initial status is "ON". *)
Theorem add_device_form_new_id
    (reg : registry) (device_id name fl ty st : string) (pw : Z) :
  device_id <> "" -> name <> "" -> reg !! device_id = None ->
  let reg' := exec (add_device_form device_id name fl ty st pw) reg in
  reg' !! device_id = Some (new_device device_id name fl ty st pw) /\
  (forall k, k <> device_id -> reg' !! k = reg !! k) /\
  size reg' = S (size reg) /\
  (total_energy (aggregate reg') == total_energy (aggregate reg))%Q /\
  (total_cost (aggregate reg') == total_cost (aggregate reg))%Q /\
  (total_carbon (aggregate reg') == total_carbon (aggregate reg))%Q /\
  device_count (aggregate reg') = S (device_count (aggregate reg)) /\
  active_devices (aggregate reg')
  = ((if bool_decide (st = "ON") then 1 else 0)
     + active_devices (aggregate reg))%Z.
Proof.
  intros Hid Hname Hfresh reg'. subst reg'. unfold exec.
  rewrite (add_accepted reg device_id name fl ty st pw Hid Hname).
  cbn [snd]. set (d := new_device device_id name fl ty st pw).
  split; [apply lookup_insert_eq|].
  split; [intros k Hk; now apply lookup_insert_ne|].
  split; [now apply map_size_insert_None|].
  unfold aggregate at 1 3 5.
  cbn [total_energy total_cost total_carbon].
  rewrite !sum_field_insert_fresh by exact Hfresh.
  split; [subst d; cbn; ring|]. split; [subst d; cbn; ring|].
  split; [subst d; cbn; ring|]. split.
  - unfold aggregate, Dict.len. cbn [device_count].
    now apply map_size_insert_None.
  - rewrite active_insert_fresh by exact Hfresh. reflexivity.
Qed.

Lemma add_device_form_new_id_witness :
  "Lab1" <> "" /\ "Lab" <> "" /\ scenario_registry !! "Lab1" = None /\
  size (exec (add_device_form "Lab1" "Lab" "1" "Light" "ON" 60)
          scenario_registry) = 3.
Proof.
  assert (Hid : "Lab1" <> "") by discriminate.
  assert (Hname : "Lab" <> "") by discriminate.
  assert (Hfresh : scenario_registry !! "Lab1" = None) by reflexivity.
  repeat (split; [assumption|]).
  destruct (add_device_form_new_id scenario_registry
              "Lab1" "Lab" "1" "Light" "ON" 60 Hid Hname Hfresh)
    as (_ & _ & Hsize & _).
  exact Hsize.
Defined.

(** X6: adding a device under an id that was not in the registry and then
    deleting that id gives back the registry as it was, whatever the form
    held (a rejected add included). *)
Theorem add_then_delete_restores
    (reg : registry) (device_id name fl ty st : string) (pw : Z) :
  reg !! device_id = None ->
  exec (delete_button device_id)
    (exec (add_device_form device_id name fl ty st pw) reg)
  = reg.
Proof.
  intros Hfresh. rewrite exec_delete. unfold exec.
  destruct (truthy device_id && truthy name) eqn:Hfilled.
  - apply andb_true_iff in Hfilled as [Hid Hname].
    apply truthy_spec in Hid, Hname.
    rewrite (add_accepted reg device_id name fl ty st pw Hid Hname).
    cbn [snd]. now apply delete_insert_id.
  - rewrite add_rejected.
    + cbn [snd]. now apply delete_id.
    + apply andb_false_iff in Hfilled as [Hid|Hname]; [left|right].
      * destruct device_id; [reflexivity|discriminate].
      * destruct name; [reflexivity|discriminate].
Qed.

Lemma add_then_delete_restores_witness :
  scenario_registry !! "Lab1" = None /\
  exec (delete_button "Lab1")
    (exec (add_device_form "Lab1" "Lab" "1" "Light" "ON" 60)
       scenario_registry)
  = scenario_registry.
Proof.
  assert (Hfresh : scenario_registry !! "Lab1" = None) by reflexivity.
  split; [exact Hfresh|].
  apply (add_then_delete_restores scenario_registry
           "Lab1" "Lab" "1" "Light" "ON" 60 Hfresh).
Defined.

(** X7: deleting is idempotent, deletions commute, and after a delete a
    status update of that id returns [False] and changes nothing. *)
Theorem delete_button_composes
    (reg : registry) (id1 id2 : string) (status : bool) :
  exec (delete_button id1) (exec (delete_button id1) reg)
  = exec (delete_button id1) reg /\
  exec (delete_button id1) (exec (delete_button id2) reg)
  = exec (delete_button id2) (exec (delete_button id1) reg) /\
  update_device_status id1 status (exec (delete_button id1) reg)
  = (Ok false, exec (delete_button id1) reg).
Proof.
  rewrite !exec_delete. split; [apply delete_delete_eq|].
  split; [apply delete_delete|].
  apply update_absent, lookup_delete_eq.
Qed.

(** X8: no handler raises.  Whatever the registry and the arguments, the
    status update, the toggle, the add form and the delete button return
    normally: every subscript and every [del] is reached only under a
    guard that makes its key present. *)
Theorem handlers_never_raise
    (reg : registry) (device_id name fl ty st : string) (pw : Z)
    (status : bool) :
  (exists b, eval (update_device_status device_id status) reg = Ok b) /\
  (exists ev, eval (toggle_ac_button device_id) reg = Ok ev) /\
  (exists ev,
     eval (add_device_form device_id name fl ty st pw) reg = Ok ev) /\
  (exists ev, eval (delete_button device_id) reg = Ok ev).
Proof.
  split; [rewrite eval_update; eauto|].
  unfold eval. destruct (reg !! device_id) as [r|] eqn:Hr.
  - rewrite (toggle_present reg device_id r Hr).
    rewrite (delete_present reg device_id r Hr).
    split; [eauto|]. split; [|eauto].
    unfold add_device_form. destruct (truthy device_id && truthy name);
      cbn; eauto.
  - rewrite (toggle_absent reg device_id Hr).
    rewrite (delete_absent reg device_id Hr).
    split; [eauto|]. split; [|eauto].
    unfold add_device_form. destruct (truthy device_id && truthy name);
      cbn; eauto.
Qed.

(** ** The active count *)

Lemma sum_int_ones_if_on (rooms : list device) :
  Num.sum_int (ones_if_on rooms)
  = Z.of_nat (length (filter (fun r => ac_status r = true) rooms)).
Proof.
  induction rooms as [|r rooms IH]; [reflexivity|].
  rewrite ones_if_on_cons, IH. unfold on_count.
  destruct (ac_status r) eqn:Hon.
  - rewrite filter_cons_True by assumption. cbn [length]. lia.
  - rewrite filter_cons_False by congruence. lia.
Qed.

(** X9: the active count of the summary is the number of stored records
    that are on; it is never negative and never exceeds the device
    count. *)
Theorem active_devices_bounds (reg : registry) :
  active_devices (aggregate reg)
  = Z.of_nat (length (filter (fun r => ac_status r = true)
                        (Dict.values reg))) /\
  (0 <= active_devices (aggregate reg)
     <= Z.of_nat (device_count (aggregate reg)))%Z.
Proof.
  unfold aggregate, Dict.len. cbn [active_devices device_count].
  rewrite sum_int_ones_if_on. split; [reflexivity|].
  pose proof (length_filter (fun r => ac_status r = true) (Dict.values reg))
    as Hle.
  assert (Hlen : length (Dict.values reg) = size reg)
    by (unfold Dict.values; now rewrite length_fmap, length_map_to_list).
  lia.
Qed.

(** ** Invariants of whole sessions *)

Lemma all_records_insert (P : device -> Prop) (reg : registry) k r :
  P r -> all_records P reg -> all_records P (<[k := r]> reg).
Proof.
  intros Hr Hreg k' r' Hk'. destruct (decide (k = k')) as [<-|Hne].
  - rewrite lookup_insert_eq in Hk'. now injection Hk' as <-.
  - rewrite lookup_insert_ne in Hk' by assumption. now apply (Hreg k').
Qed.

Lemma all_records_perform (P : device -> Prop) (a : action) (reg : registry) :
  (forall b r, P r -> P (set_ac_status b r)) ->
  match a with
  | Add id name fl ty st pw => P (new_device id name fl ty st pw)
  | SetStatus _ _ | Delete _ => True
  end ->
  all_records P reg -> all_records P (perform a reg).
Proof.
  intros Hset Hnew Hreg.
  destruct a as [id name fl ty st pw | id status | id]; cbn [perform].
  - unfold exec. destruct (truthy id && truthy name) eqn:Hfilled.
    + apply andb_true_iff in Hfilled as [Hid Hname].
      apply truthy_spec in Hid, Hname.
      rewrite (add_accepted reg id name fl ty st pw Hid Hname).
      now apply all_records_insert.
    + rewrite add_rejected; [exact Hreg|].
      apply andb_false_iff in Hfilled as [Hid|Hname]; [left|right].
      * destruct id; [reflexivity|discriminate].
      * destruct name; [reflexivity|discriminate].
  - unfold exec. destruct (reg !! id) as [r|] eqn:Hr.
    + rewrite (update_present reg id status r Hr).
      apply all_records_insert; [|exact Hreg]. apply Hset, (Hreg id r Hr).
    + now rewrite (update_absent reg id status Hr).
  - rewrite exec_delete. intros k r Hk.
    apply lookup_delete_Some in Hk as [_ Hk]. now apply (Hreg k).
Qed.

Lemma all_records_generated (P : device -> Prop) (rnd : nat -> Draw) :
  (forall i fl room,
     rooms_of get_building_structure !! i = Some (fl, room) ->
     P (snd (synthesize fl room (rnd i)))) ->
  all_records P (generate_synthetic_data rnd).
Proof.
  intros Hsyn k r Hk.
  destruct (generated_origin rnd k r Hk) as (i & fl & room & Hi & Hkr).
  specialize (Hsyn i fl room Hi). now rewrite <- Hkr in Hsyn.
Qed.

(** X10: the voltage of every record is 220 in every registry a session
    can reach, whatever the random outcomes and the form inputs. *)
Theorem voltage_is_220 (reg : registry) :
  reachable reg -> all_records (fun r => voltage r = 220%Z) reg.
Proof.
  induction 1 as [rnd | a reg _ IH].
  - apply all_records_generated. reflexivity.
  - apply all_records_perform; [trivial | now destruct a | exact IH].
Qed.

Lemma voltage_is_220_witness :
  reachable (perform (Add "Lab1" "Lab" "1" "Light" "ON" 60)
               (generate_synthetic_data sample_rnd)) /\
  all_records (fun r => voltage r = 220%Z)
    (perform (Add "Lab1" "Lab" "1" "Light" "ON" 60)
       (generate_synthetic_data sample_rnd)).
Proof.
  assert (Hreach :
    reachable (perform (Add "Lab1" "Lab" "1" "Light" "ON" 60)
                 (generate_synthetic_data sample_rnd)))
    by exact (reach_step _ _ (reach_init sample_rnd)).
  split; [exact Hreach|].
  exact (voltage_is_220 _ Hreach).
Defined.

(** ** Stored readings stay in range *)

Lemma round_half_even_ge (x : Q) (m : Z) :
  (inject_Z m <= x)%Q -> (m <= Num.round_half_even x)%Z.
Proof.
  intros Hm. apply Qfloor_resp_le in Hm. rewrite Qfloor_Z in Hm.
  unfold Num.round_half_even.
  destruct (x - inject_Z (Qfloor x) ?= 1 # 2)%Q;
    [destruct (Z.even (Qfloor x))| |]; lia.
Qed.

Lemma round_half_even_le (x : Q) (m : Z) :
  (x <= inject_Z m)%Q -> (Num.round_half_even x <= m)%Z.
Proof.
  intros Hm. pose proof (Qfloor_le x) as Hfloor.
  pose proof (Qfloor_resp_le _ _ Hm) as Hle. rewrite Qfloor_Z in Hle.
  unfold Num.round_half_even.
  destruct (Z.eq_dec (Qfloor x) m) as [Heq|Hne].
  - assert (Hx : (x - inject_Z (Qfloor x) < 1 # 2)%Q)
      by (rewrite Heq; lra).
    destruct (Qcompare_spec (x - inject_Z (Qfloor x)) (1 # 2))
      as [Hhalf | _ | Hover]; [exfalso; lra | lia | exfalso; lra].
  - destruct (x - inject_Z (Qfloor x) ?= 1 # 2)%Q;
      [destruct (Z.even (Qfloor x))| |]; lia.
Qed.

(** Linear arithmetic over [Q] with division by the constants of the code
    and injected integer literals. *)
Ltac q_arith :=
  unfold Qdiv in *;
  change (/ 100)%Q with (1 # 100)%Q in *;
  change (/ 220)%Q with (1 # 220)%Q in *;
  repeat match goal with
         | |- context [inject_Z (Z.pos ?n)] =>
             change (inject_Z (Z.pos n)) with (Z.pos n # 1)%Q
         end;
  lra.

Lemma round2_ge (x : Q) (m : Z) :
  (inject_Z m / 100 <= x)%Q -> (inject_Z m / 100 <= Num.round2 x)%Q.
Proof.
  intros Hm. unfold Num.round2.
  assert (Hz : (m <= Num.round_half_even (x * 100))%Z)
    by (apply round_half_even_ge; q_arith).
  rewrite Zle_Qle in Hz. q_arith.
Qed.

Lemma round2_le (x : Q) (m : Z) :
  (x <= inject_Z m / 100)%Q -> (Num.round2 x <= inject_Z m / 100)%Q.
Proof.
  intros Hm. unfold Num.round2.
  assert (Hz : (Num.round_half_even (x * 100) <= m)%Z)
    by (apply round_half_even_le; q_arith).
  rewrite Zle_Qle in Hz. q_arith.
Qed.

Lemma building_floors_are_options :
  Forall (fun fr : string * string => fst fr ∈ floor_options)
    (rooms_of get_building_structure).
Proof. apply (bool_decide_unpack _). vm_compute. reflexivity. Qed.

Lemma synthesize_ranges (fl room : string) (d : Draw) :
  fl ∈ floor_options -> draw_in_range d ->
  generated_ranges (snd (synthesize fl room d)).
Proof.
  intros Hfl (Hpower & Hlo & Hhi).
  unfold generated_ranges, synthesize.
  cbn [snd floor power current energy_kwh cost_taka carbon_emissions].
  set (p := randint_800_2000 d) in *.
  set (e := uniform_5_25 d) in *.
  split; [exact Hfl|]. split; [exact Hpower|].
  assert (Hp1 : (800 <= inject_Z p)%Q)
    by (change 800%Q with (inject_Z 800); rewrite <- Zle_Qle; lia).
  assert (Hp2 : (inject_Z p <= 2000)%Q)
    by (change 2000%Q with (inject_Z 2000); rewrite <- Zle_Qle; lia).
  change (inject_Z 220) with 220%Q.
  split; [apply (Qle_trans _ (inject_Z 363 / 100));
          [|apply round2_ge]; q_arith|].
  split; [apply (Qle_trans _ (inject_Z 910 / 100));
          [apply round2_le|]; q_arith|].
  split; [apply (Qle_trans _ (inject_Z 500 / 100));
          [|apply round2_ge]; q_arith|].
  split; [apply (Qle_trans _ (inject_Z 2500 / 100));
          [apply round2_le|]; q_arith|].
  split; [apply (Qle_trans _ (inject_Z 4250 / 100));
          [|apply round2_ge]; q_arith|].
  split; [apply (Qle_trans _ (inject_Z 21250 / 100));
          [apply round2_le|]; q_arith|].
  split; [apply (Qle_trans _ (inject_Z 250000 / 100));
          [|apply round2_ge]; q_arith|].
  apply (Qle_trans _ (inject_Z 1250000 / 100)); [apply round2_le|]; q_arith.
Qed.

Lemma building_floor_is_option (i : nat) (fl room : string) :
  rooms_of get_building_structure !! i = Some (fl, room) ->
  fl ∈ floor_options.
Proof.
  intros Hi. pose proof building_floors_are_options as Hall.
  rewrite Forall_forall in Hall.
  apply (Hall (fl, room)), list_elem_of_lookup. eauto.
Qed.

(** X11: when the random outcomes are within their ranges, every stored
    reading of every generated record is within a fixed range after
    rounding: energy in [5, 25], cost in [42.5, 212.5], carbon in
    [2500, 12500], current in [3.63, 9.1], power in [800, 2000]; and its
    floor is one of the floors of the select boxes. *)
Theorem generated_readings_in_range (rnd : nat -> Draw) :
  (forall n, draw_in_range (rnd n)) ->
  all_records generated_ranges (generate_synthetic_data rnd).
Proof.
  intros Hrange k r Hk.
  destruct (generated_origin rnd k r Hk) as (i & fl & room & Hi & Hkr).
  replace r with (snd (synthesize fl room (rnd i))) by now rewrite <- Hkr.
  apply synthesize_ranges; [|apply Hrange].
  exact (building_floor_is_option i fl room Hi).
Qed.

Lemma generated_readings_in_range_witness :
  (forall n, draw_in_range (sample_rnd n)) /\
  all_records generated_ranges (generate_synthetic_data sample_rnd).
Proof.
  assert (Hrange : forall n, draw_in_range (sample_rnd n))
    by (intros n; repeat split; vm_compute; congruence).
  split; [exact Hrange|].
  exact (generated_readings_in_range sample_rnd Hrange).
Defined.

Lemma generated_ranges_ok (r : device) : generated_ranges r -> readings_ok r.
Proof.
  intros (Hfl & Hp & Hc & _ & He & _ & Ht & _ & Hg & _).
  repeat split; [exact Hfl | lia | lra..].
Qed.

Lemma new_device_ok id name fl ty st pw :
  fl ∈ floor_options -> (0 <= pw)%Z ->
  readings_ok (new_device id name fl ty st pw).
Proof.
  intros Hfl Hpw. unfold readings_ok, new_device.
  cbn [floor power current energy_kwh cost_taka carbon_emissions].
  assert (Hq : (0 <= inject_Z pw)%Q)
    by (change 0%Q with (inject_Z 0); rewrite <- Zle_Qle; lia).
  repeat split; [exact Hfl | exact Hpw | q_arith | lra..].
Qed.

Lemma run_all_records (P : device -> Prop) (actions : list action)
    (reg : registry) :
  (forall a reg, widget_valid a ->
     all_records P reg -> all_records P (perform a reg)) ->
  Forall widget_valid actions ->
  all_records P reg -> all_records P (run actions reg).
Proof.
  intros Hstep Hvalid. revert reg.
  induction Hvalid as [|a actions Ha _ IH]; intros reg Hreg.
  - exact Hreg.
  - cbn [run fold_left]. apply IH, Hstep; assumption.
Qed.

Lemma sum_nonneg (l : list Q) :
  Forall (fun x => (0 <= x)%Q) l -> (0 <= Num.sum l)%Q.
Proof.
  induction 1 as [|x l Hx _ IH]; [discriminate|].
  rewrite sum_cons. lra.
Qed.

Lemma values_Forall (P : device -> Prop) (reg : registry) :
  all_records P reg -> Forall P (Dict.values reg).
Proof.
  intros Hreg. apply Forall_forall. intros r Hr.
  unfold Dict.values in Hr.
  apply list_elem_of_fmap in Hr as ([k r'] & -> & Hkr).
  apply elem_of_map_to_list in Hkr. exact (Hreg k r' Hkr).
Qed.

(** X12: start from a generated registry whose random outcomes were in
    range and perform any sequence of actions the widgets allow (add
    forms with a floor of the select box and a power rating of at least
    0, status updates, deletes).  Then every record has a floor of the
    select box and no negative power, current, energy, cost or carbon,
    and the three totals of the summary are not negative. *)
Theorem widget_session_readings
    (rnd : nat -> Draw) (actions : list action) :
  (forall n, draw_in_range (rnd n)) ->
  Forall widget_valid actions ->
  let reg := run actions (generate_synthetic_data rnd) in
  all_records readings_ok reg /\
  (0 <= total_energy (aggregate reg))%Q /\
  (0 <= total_cost (aggregate reg))%Q /\
  (0 <= total_carbon (aggregate reg))%Q.
Proof.
  intros Hrange Hvalid reg.
  assert (Hok : all_records readings_ok reg).
  { subst reg. apply run_all_records; [|exact Hvalid|].
    - intros a reg Ha Hreg. apply all_records_perform; [|..|exact Hreg].
      + intros b r Hr. exact Hr.
      + destruct a as [id name fl ty st pw| |]; [|trivial..].
        destruct Ha as [Hfl Hpw]. now apply new_device_ok.
    - apply all_records_generated. intros i fl room Hi.
      apply generated_ranges_ok, synthesize_ranges; [|apply Hrange].
      exact (building_floor_is_option i fl room Hi). }
  split; [exact Hok|].
  pose proof (values_Forall readings_ok reg Hok) as Hall.
  unfold aggregate. cbn [total_energy total_cost total_carbon].
  repeat split; apply sum_nonneg, Forall_fmap;
    (eapply Forall_impl; [exact Hall|]);
    intros r (_ & _ & _ & He & Ht & Hg); assumption.
Qed.

Lemma widget_session_readings_witness :
  (forall n, draw_in_range (sample_rnd n)) /\
  Forall widget_valid
    [Add "Lab1" "Lab" "1" "Light" "ON" 60; Delete "Room101"] /\
  (0 <= total_energy
          (aggregate
             (run [Add "Lab1" "Lab" "1" "Light" "ON" 60; Delete "Room101"]
                (generate_synthetic_data sample_rnd))))%Q.
Proof.
  assert (Hrange : forall n, draw_in_range (sample_rnd n))
    by (intros n; repeat split; vm_compute; congruence).
  assert (Hvalid : Forall widget_valid
            [Add "Lab1" "Lab" "1" "Light" "ON" 60; Delete "Room101"]).
  { apply Forall_cons. split.
    - split; [|apply Z.leb_le; reflexivity].
      apply list_elem_of_further, list_elem_of_here.
    - apply Forall_cons. split; [exact I | apply Forall_nil_2]. }
  split; [exact Hrange|]. split; [exact Hvalid|].
  destruct (widget_session_readings sample_rnd _ Hrange Hvalid)
    as (_ & Henergy & _).
  exact Henergy.
Defined.

(** * The room select box *)

Lemma append_assoc_string (a b c : string) :
  ((a ++ b) ++ c = a ++ (b ++ c))%string.
Proof.
  induction a as [|x a IH]; [reflexivity|].
  change (String x ((a ++ b) ++ c) = String x (a ++ (b ++ c)))%string.
  now rewrite IH.
Qed.

Lemma length_append_string (a b : string) :
  String.length (a ++ b) = String.length a + String.length b.
Proof.
  induction a as [|x a IH]; [reflexivity|].
  change (S (String.length (a ++ b)) = S (String.length a + String.length b)).
  now rewrite IH.
Qed.

Lemma prefix_sep_other (c : ascii) (s : string) :
  Ascii.eqb c " "%char = false -> String.prefix " - " (String c s) = false.
Proof.
  intros Hc.
  change (String.prefix " - " (String c s))
    with (if ascii_dec " " c then String.prefix "- " s else false).
  destruct (ascii_dec " " c) as [<-|_]; [discriminate Hc | reflexivity].
Qed.

Lemma split_head_before_sep (p rest : string) :
  no_space p = true ->
  split_head " - " (p ++ " - " ++ rest) = p.
Proof.
  induction p as [|c p IH]; intros Hp.
  - destruct rest; reflexivity.
  - cbn [no_space] in Hp. apply andb_true_iff in Hp as [Hc Hp].
    apply negb_true_iff in Hc.
    change (String c p ++ " - " ++ rest)%string
      with (String c (p ++ " - " ++ rest)).
    cbn [split_head]. rewrite (prefix_sep_other c _ Hc).
    now rewrite (IH Hp).
Qed.

Lemma replace_space_no_space (s : string) :
  no_space (replace_space s) = true.
Proof.
  induction s as [|c s IH]; [reflexivity|].
  cbn [replace_space]. destruct (Ascii.eqb c " ") eqn:Hc; [exact IH|].
  cbn [no_space]. now rewrite Hc, IH.
Qed.

(** X13: the id made from a room name never contains a space; making an
    id from an id changes nothing; a name without spaces is its own id;
    and the id is never longer than the name. *)
Theorem replace_space_normalises (s : string) :
  no_space (replace_space s) = true /\
  replace_space (replace_space s) = replace_space s /\
  (no_space s = true -> replace_space s = s) /\
  String.length (replace_space s) <= String.length s.
Proof.
  induction s as [|c s (IH1 & IH2 & IH3 & IH4)].
  - repeat split; reflexivity || lia.
  - cbn [replace_space no_space]. destruct (Ascii.eqb c " ") eqn:Hc.
    + split; [exact IH1|]. split; [exact IH2|].
      split; [discriminate|]. cbn [String.length]. lia.
    + cbn [replace_space no_space String.length]. rewrite Hc.
      split; [exact IH1|]. split; [now rewrite IH2|].
      split; [|lia]. cbn [negb andb]. intros Hs. now rewrite (IH3 Hs).
Qed.

Lemma replace_space_normalises_witness :
  no_space "Room101" = true /\ replace_space "Room101" = "Room101".
Proof.
  assert (Hs : no_space "Room101" = true) by reflexivity.
  split; [exact Hs|].
  destruct (replace_space_normalises "Room101") as (_ & _ & Hid & _).
  exact (Hid Hs).
Defined.

(** X14: the room details page recovers the id from the selected option
    when the id has no space.  When the id contains the separator
    [" - "] after a space-free prefix, the page looks up that prefix
    instead, which is a different key. *)
Theorem selected_room_of_option (p q : string) (data : device) :
  no_space p = true ->
  selected_room (room_option p data) = p /\
  selected_room (room_option (p ++ " - " ++ q) data) = p /\
  (p ++ " - " ++ q)%string <> p.
Proof.
  intros Hp. unfold selected_room, room_option.
  split; [now apply split_head_before_sep|]. split.
  - rewrite append_assoc_string.
    change (" - " ++ q ++ " - " ++ room_name data)%string
      with (" - " ++ (q ++ " - " ++ room_name data))%string.
    now apply split_head_before_sep.
  - intros Heq. apply (f_equal String.length) in Heq.
    rewrite !length_append_string in Heq. cbn [String.length] in Heq. lia.
Qed.

Lemma selected_room_of_option_witness :
  no_space "Lab" = true /\
  selected_room (room_option "Lab - 2" room101) = "Lab".
Proof.
  assert (Hp : no_space "Lab" = true) by reflexivity.
  split; [exact Hp|].
  destruct (selected_room_of_option "Lab" "2" room101 Hp) as (_ & Hcut & _).
  exact Hcut.
Defined.

(** X15: on a generated registry every option of the room select box
    leads back to the record it was made from: the id cut from the
    option is a key and holds that record. *)
Theorem generated_room_options_resolve (rnd : nat -> Draw) (option_ : string) :
  option_ ∈ room_options (generate_synthetic_data rnd) ->
  exists k r,
    generate_synthetic_data rnd !! k = Some r /\
    option_ = room_option k r /\
    selected_room option_ = k /\
    generate_synthetic_data rnd !! selected_room option_ = Some r.
Proof.
  intros Hopt. unfold room_options in Hopt.
  apply list_elem_of_fmap in Hopt as ([k r] & -> & Hkr).
  apply elem_of_map_to_list in Hkr. cbn [fst snd].
  assert (Hsel : selected_room (room_option k r) = k).
  { destruct (generated_origin rnd k r Hkr) as (i & fl & room & _ & Hsyn).
    unfold synthesize in Hsyn. injection Hsyn as -> _.
    apply split_head_before_sep, replace_space_no_space. }
  exists k, r. rewrite Hsel. now repeat split.
Qed.

Lemma generated_room_options_resolve_witness :
  "Room101 - Room 101" ∈ room_options (generate_synthetic_data sample_rnd) /\
  exists r,
    generate_synthetic_data sample_rnd
      !! selected_room "Room101 - Room 101" = Some r.
Proof.
  assert (Hopt : "Room101 - Room 101"
                 ∈ room_options (generate_synthetic_data sample_rnd)).
  { apply list_elem_of_fmap.
    exists ("Room101", snd (synthesize "Ground" "Room 101" sample_draw)).
    split; [reflexivity|]. apply elem_of_map_to_list.
    vm_compute. reflexivity. }
  split; [exact Hopt|].
  destruct (generated_room_options_resolve sample_rnd _ Hopt)
    as (k & r & _ & _ & _ & Hr).
  exists r. exact Hr.
Defined.

(** * The simulated series of the room details page *)

Ltac q_series :=
  unfold Qdiv in *;
  change (/ 24)%Q with (1 # 24)%Q in *;
  change (/ 12)%Q with (1 # 12)%Q in *;
  change (/ 7)%Q with (1 # 7)%Q in *;
  change (/ 220)%Q with (1 # 220)%Q in *.

Lemma mod_in_Q (i : nat) (b : Z) :
  (0 < b)%Z ->
  (0 <= inject_Z (Z.of_nat i mod b))%Q /\
  (inject_Z (Z.of_nat i mod b) <= inject_Z (b - 1))%Q.
Proof.
  intros Hb. pose proof (Z.mod_pos_bound (Z.of_nat i) b Hb) as [Hlo Hhi].
  change 0%Q with (inject_Z 0). rewrite <- !Zle_Qle. lia.
Qed.

Lemma power_data_lookup (base_power : Z) (n i : nat) :
  i < n ->
  Chart.power_data base_power n !! i
  = Some (inject_Z base_power
          * (0.7 + 0.6 * inject_Z (Z.of_nat i mod 24) / 24))%Q.
Proof.
  intros Hi. unfold Chart.power_data.
  now rewrite list_lookup_fmap, lookup_seq_lt.
Qed.

Lemma voltage_data_lookup (n i : nat) :
  i < n ->
  Chart.voltage_data n !! i
  = Some (220 + 10 * inject_Z (Z.of_nat i mod 12) / 12)%Q.
Proof.
  intros Hi. unfold Chart.voltage_data.
  now rewrite list_lookup_fmap, lookup_seq_lt.
Qed.

Lemma voltage_value_bounds (i : nat) :
  (220 <= 220 + 10 * inject_Z (Z.of_nat i mod 12) / 12)%Q /\
  (220 + 10 * inject_Z (Z.of_nat i mod 12) / 12 < 230)%Q.
Proof.
  destruct (mod_in_Q i 12 eq_refl) as [Hlo Hhi].
  change (inject_Z (12 - 1)) with 11%Q in Hhi.
  q_series. split; lra.
Qed.

Lemma power_value_bounds (base_power : Z) (i : nat) :
  (0 <= base_power)%Z ->
  (0.7 * inject_Z base_power
   <= inject_Z base_power * (0.7 + 0.6 * inject_Z (Z.of_nat i mod 24) / 24)
  )%Q /\
  (inject_Z base_power * (0.7 + 0.6 * inject_Z (Z.of_nat i mod 24) / 24)
   <= 1.3 * inject_Z base_power)%Q.
Proof.
  intros Hbase. destruct (mod_in_Q i 24 eq_refl) as [Hlo Hhi].
  change (inject_Z (24 - 1)) with 23%Q in Hhi.
  assert (Hb : (0 <= inject_Z base_power)%Q)
    by (change 0%Q with (inject_Z 0); rewrite <- Zle_Qle; lia).
  q_series. set (m := inject_Z (Z.of_nat i mod 24)) in *.
  set (b := inject_Z base_power) in *. split; nra.
Qed.

(** X16: the simulated power and voltage series have one value per time
    point.  Every voltage is at least 220 and below 230; for a base power
    that is not negative every power value is between 70% and 130% of
    it; and both series repeat, the power every 24 points and the
    voltage every 12. *)
Theorem power_and_voltage_series (base_power : Z) (n : nat) :
  length (Chart.power_data base_power n) = n /\
  length (Chart.voltage_data n) = n /\
  (forall i v, Chart.voltage_data n !! i = Some v ->
     (220 <= v)%Q /\ (v < 230)%Q) /\
  (forall i p, (0 <= base_power)%Z ->
     Chart.power_data base_power n !! i = Some p ->
     (0.7 * inject_Z base_power <= p)%Q /\
     (p <= 1.3 * inject_Z base_power)%Q) /\
  (forall i, i + 24 < n ->
     Chart.power_data base_power n !! (i + 24)
     = Chart.power_data base_power n !! i) /\
  (forall i, i + 12 < n ->
     Chart.voltage_data n !! (i + 12) = Chart.voltage_data n !! i).
Proof.
  split; [unfold Chart.power_data; now rewrite length_fmap, length_seq|].
  split; [unfold Chart.voltage_data; now rewrite length_fmap, length_seq|].
  split; [|split; [|split]].
  - intros i v Hv.
    assert (Hi : i < n).
    { apply lookup_lt_Some in Hv. unfold Chart.voltage_data in Hv.
      now rewrite length_fmap, length_seq in Hv. }
    rewrite (voltage_data_lookup n i Hi) in Hv. injection Hv as <-.
    apply voltage_value_bounds.
  - intros i p Hbase Hp.
    assert (Hi : i < n).
    { apply lookup_lt_Some in Hp. unfold Chart.power_data in Hp.
      now rewrite length_fmap, length_seq in Hp. }
    rewrite (power_data_lookup base_power n i Hi) in Hp.
    injection Hp as <-. now apply power_value_bounds.
  - intros i Hi.
    rewrite !power_data_lookup by lia.
    replace (Z.of_nat (i + 24) mod 24)%Z with (Z.of_nat i mod 24)%Z;
      [reflexivity|].
    rewrite Nat2Z.inj_add. change (Z.of_nat 24) with (1 * 24)%Z.
    now rewrite Z.mod_add.
  - intros i Hi.
    rewrite !voltage_data_lookup by lia.
    replace (Z.of_nat (i + 12) mod 12)%Z with (Z.of_nat i mod 12)%Z;
      [reflexivity|].
    rewrite Nat2Z.inj_add. change (Z.of_nat 12) with (1 * 12)%Z.
    now rewrite Z.mod_add.
Qed.

Lemma power_and_voltage_series_witness :
  (0 <= 1500)%Z /\
  Chart.power_data 1500 24 !! 12 = Some (1500 * (0.7 + 0.6 * 12 / 24))%Q /\
  (0.7 * 1500 <= 1500 * (0.7 + 0.6 * 12 / 24))%Q.
Proof.
  assert (Hbase : (0 <= 1500)%Z) by (apply Z.leb_le; reflexivity).
  assert (Hp : Chart.power_data 1500 24 !! 12
               = Some (1500 * (0.7 + 0.6 * 12 / 24))%Q) by reflexivity.
  split; [exact Hbase|]. split; [exact Hp|].
  destruct (power_and_voltage_series 1500 24) as (_ & _ & _ & Hpower & _).
  destruct (Hpower 12 _ Hbase Hp) as [Hlo _]. exact Hlo.
Defined.

Lemma current_data_over_ok (power voltage : list Q) (indices : list nat) :
  Forall (fun i => exists p v,
            power !! i = Some p /\ voltage !! i = Some v /\ ~ (v == 0)%Q)
    indices ->
  exists cs,
    Chart.current_data_over power voltage indices = inr cs /\
    Forall2 (fun i c => exists p v,
               power !! i = Some p /\ voltage !! i = Some v /\
               c = (p / v)%Q)
      indices cs.
Proof.
  induction 1 as [|i rest (p & v & Hp & Hv & Hnz) _ (cs & Hcs & Hall)].
  - exists []. split; [reflexivity | constructor].
  - exists ((p / v)%Q :: cs). cbn [Chart.current_data_over].
    unfold Chart.getitem, Chart.truediv. rewrite Hp, Hv.
    destruct (Qeq_bool v 0) eqn:Hz.
    + apply Qeq_bool_iff in Hz. contradiction.
    + rewrite Hcs. split; [reflexivity|].
      constructor; [|exact Hall]. exists p, v. now repeat split.
Qed.

(** X17: building the current series never fails: no index is out of
    range and no voltage is zero.  The result has one value per time
    point, each the quotient of the power and the voltage at that point;
    for a base power that is not negative each current is between 0 and
    1.3 * base / 220. *)
Theorem current_series_defined (base_power : Z) (n : nat) :
  exists cs,
    Chart.current_data base_power n = inr cs /\
    length cs = n /\
    forall i c, cs !! i = Some c ->
      exists p v,
        Chart.power_data base_power n !! i = Some p /\
        Chart.voltage_data n !! i = Some v /\
        c = (p / v)%Q /\
        ((0 <= base_power)%Z ->
         (0 <= c)%Q /\ (c <= 1.3 * inject_Z base_power / 220)%Q).
Proof.
  unfold Chart.current_data.
  destruct (current_data_over_ok (Chart.power_data base_power n)
              (Chart.voltage_data n) (seq 0 n)) as (cs & Hcs & Hall).
  { apply Forall_forall. intros i Hi. apply elem_of_seq in Hi as [_ Hi].
    cbn in Hi. eexists _, _.
    rewrite power_data_lookup, voltage_data_lookup by exact Hi.
    split; [reflexivity|]. split; [reflexivity|].
    destruct (voltage_value_bounds i) as [Hlo _]. intros Hz. lra. }
  exists cs. split; [exact Hcs|].
  pose proof (Forall2_length _ _ _ Hall) as Hlen.
  rewrite length_seq in Hlen. split; [now symmetry|].
  intros i c Hc.
  assert (Hi : i < n) by (apply lookup_lt_Some in Hc; lia).
  destruct (Forall2_lookup_r _ _ _ _ _ Hall Hc)
    as (j & Hj & p & v & Hp & Hv & ->).
  rewrite lookup_seq_lt in Hj by exact Hi. injection Hj as <-.
  cbn [Nat.add] in Hp, Hv. exists p, v.
  split; [exact Hp|]. split; [exact Hv|].
  rewrite voltage_data_lookup in Hv by exact Hi. injection Hv as <-.
  rewrite power_data_lookup in Hp by exact Hi. injection Hp as <-.
  destruct (voltage_value_bounds i) as [Hvlo Hvhi].
  set (v := (220 + 10 * inject_Z (Z.of_nat i mod 12) / 12)%Q) in *.
  split.
  - reflexivity.
  - intros Hbase.
    destruct (power_value_bounds base_power i Hbase) as [Hplo Hphi].
    set (p := (inject_Z base_power
               * (0.7 + 0.6 * inject_Z (Z.of_nat i mod 24) / 24))%Q) in *.
    assert (Hb : (0 <= inject_Z base_power)%Q)
      by (change 0%Q with (inject_Z 0); rewrite <- Zle_Qle; lia).
    split.
    + apply Qle_shift_div_l; lra.
    + apply Qle_shift_div_r; [lra|].
      apply Qle_trans with (1.3 * inject_Z base_power)%Q; [exact Hphi|].
      q_series. nra.
Qed.

Lemma current_series_defined_witness :
  (0 <= 1500)%Z /\
  exists cs,
    Chart.current_data 1500 24 = inr cs /\ length cs = 24 /\
    forall i c, cs !! i = Some c -> (0 <= c)%Q.
Proof.
  assert (Hbase : (0 <= 1500)%Z) by (apply Z.leb_le; reflexivity).
  split; [exact Hbase|].
  destruct (current_series_defined 1500 24) as (cs & Hcs & Hlen & Hall).
  exists cs. split; [exact Hcs|]. split; [exact Hlen|].
  intros i c Hc. destruct (Hall i c Hc) as (p & v & _ & _ & _ & Hrange).
  exact (proj1 (Hrange Hbase)).
Defined.

Lemma daily_energy_lookup (energy : Q) (i : nat) :
  i < 15 ->
  Chart.daily_energy energy !! i
  = Some (energy * (0.8 + 0.4 * inject_Z (Z.of_nat i mod 7) / 7))%Q.
Proof.
  intros Hi. unfold Chart.daily_energy.
  now rewrite list_lookup_fmap, lookup_seq_lt.
Qed.

(** X18: the fifteen-day projection of a room has fifteen energy values
    and fifteen cost values.  For an energy reading that is not negative
    each daily value is between 80% and 120% of it; each daily cost is
    8.5 times the daily energy of the same day; and the projection
    repeats every seven days. *)
Theorem daily_projection (energy : Q) :
  length (Chart.daily_energy energy) = 15 /\
  length (Chart.daily_cost energy) = 15 /\
  (forall i e, (0 <= energy)%Q ->
     Chart.daily_energy energy !! i = Some e ->
     (0.8 * energy <= e)%Q /\ (e <= 1.2 * energy)%Q) /\
  (forall i, Chart.daily_cost energy !! i
             = (fun e => (e * 8.5)%Q) <$> Chart.daily_energy energy !! i) /\
  (forall i, i + 7 < 15 ->
     Chart.daily_energy energy !! (i + 7) = Chart.daily_energy energy !! i).
Proof.
  split; [reflexivity|]. split; [reflexivity|]. split; [|split].
  - intros i e Henergy He.
    assert (Hi : i < 15) by (apply lookup_lt_Some in He; exact He).
    rewrite (daily_energy_lookup energy i Hi) in He. injection He as <-.
    destruct (mod_in_Q i 7 eq_refl) as [Hlo Hhi].
    change (inject_Z (7 - 1)) with 6%Q in Hhi.
    q_series. set (m := inject_Z (Z.of_nat i mod 7)) in *. split; nra.
  - intros i. unfold Chart.daily_cost. apply list_lookup_fmap.
  - intros i Hi. rewrite !daily_energy_lookup by lia.
    replace (Z.of_nat (i + 7) mod 7)%Z with (Z.of_nat i mod 7)%Z;
      [reflexivity|].
    rewrite Nat2Z.inj_add. change (Z.of_nat 7) with (1 * 7)%Z.
    now rewrite Z.mod_add.
Qed.

Lemma daily_projection_witness :
  (0 <= 10)%Q /\
  Chart.daily_energy 10 !! 3 = Some (10 * (0.8 + 0.4 * 3 / 7))%Q /\
  (10 * (0.8 + 0.4 * 3 / 7) <= 1.2 * 10)%Q.
Proof.
  assert (Henergy : (0 <= 10)%Q) by discriminate.
  assert (He : Chart.daily_energy 10 !! 3
               = Some (10 * (0.8 + 0.4 * 3 / 7))%Q) by reflexivity.
  split; [exact Henergy|]. split; [exact He|].
  destruct (daily_projection 10) as (_ & _ & Hbounds & _).
  exact (proj2 (Hbounds 3 _ Henergy He)).
Defined.

(** * The floor pages of the overview *)

Lemma count_on_one_floor (floors : list string) (fl : string) :
  NoDup floors -> fl ∈ floors ->
  sum_list ((fun f => if decide (fl = f) then 1 else 0) <$> floors) = 1.
Proof.
  induction 1 as [|f floors Hfresh Hnodup IH]; intros Hin.
  - now apply elem_of_nil in Hin.
  - csimpl.
    destruct (decide (fl = f)) as [->|Hne].
    + assert (Hrest :
        sum_list ((fun f' => if decide (f = f') then 1 else 0) <$> floors)
        = 0).
      { clear IH Hnodup Hin. induction floors as [|g floors IH'];
          [reflexivity|].
        apply not_elem_of_cons in Hfresh as [Hg Hfresh].
        csimpl.
        rewrite decide_False by exact Hg. now rewrite IH'. }
      now rewrite Hrest.
    + apply elem_of_cons in Hin as [Heq|Hin]; [contradiction|].
      now rewrite (IH Hin).
Qed.

Lemma tiles_count_cons (floors : list string) (kd : string * device)
    (items : list (string * device)) :
  sum_list ((fun f => length (filter (fun kd : string * device =>
                                        floor (snd kd) = f) (kd :: items)))
              <$> floors)
  = sum_list ((fun f => if decide (floor (snd kd) = f) then 1 else 0)
                <$> floors)
    + sum_list ((fun f => length (filter (fun kd : string * device =>
                                            floor (snd kd) = f) items))
                  <$> floors).
Proof.
  induction floors as [|f floors IH]; [reflexivity|].
  rewrite !fmap_cons. cbn [sum_list sum_list_with]. rewrite IH.
  destruct (decide (floor (snd kd) = f)) as [Heq|Hne].
  - rewrite filter_cons_True by exact Heq. cbn [length]. unfold id. lia.
  - rewrite filter_cons_False by exact Hne. unfold id. lia.
Qed.

Lemma tiles_count (floors : list string) (items : list (string * device)) :
  NoDup floors ->
  Forall (fun kd => floor (snd kd) ∈ floors) items ->
  sum_list ((fun f => length (filter (fun kd : string * device =>
                                        floor (snd kd) = f) items))
              <$> floors)
  = length items.
Proof.
  intros Hnodup. induction 1 as [|kd items Hkd _ IH].
  - clear Hnodup. induction floors as [|f floors IHf]; [reflexivity|].
    rewrite fmap_cons. cbn [sum_list sum_list_with].
    rewrite filter_nil. unfold id. exact IHf.
  - rewrite tiles_count_cons, IH.
    now rewrite (count_on_one_floor floors (floor (snd kd)) Hnodup Hkd).
Qed.

(** X19: in a registry all of whose records carry a floor of the select
    box (every registry of a session driven through the widgets), each
    device is a tile of exactly one floor page of the overview, and the
    tiles of all pages together are as many as there are devices. *)
Theorem overview_pages_cover (reg : registry) :
  all_records (fun r => floor r ∈ floor_options) reg ->
  (forall k r, reg !! k = Some r ->
     floor r ∈ overview_floors /\
     forall f, (k, r) ∈ floor_tiles f reg <-> f = floor r) /\
  sum_list ((fun f => length (floor_tiles f reg)) <$> overview_floors)
  = size reg.
Proof.
  intros Hfloors. split.
  - intros k r Hk. split; [exact (Hfloors k r Hk)|].
    intros f. unfold floor_tiles. rewrite list_elem_of_filter.
    cbn [snd]. rewrite elem_of_map_to_list. split.
    + now intros [-> _].
    + now intros ->.
  - unfold floor_tiles. rewrite tiles_count.
    + apply length_map_to_list.
    + apply (bool_decide_unpack _). vm_compute. reflexivity.
    + apply Forall_forall. intros [k r] Hkr.
      apply elem_of_map_to_list in Hkr. exact (Hfloors k r Hkr).
Qed.

Lemma overview_pages_cover_witness :
  all_records (fun r => floor r ∈ floor_options) scenario_registry /\
  sum_list ((fun f => length (floor_tiles f scenario_registry))
              <$> overview_floors)
  = 2.
Proof.
  assert (Hfloors :
    all_records (fun r => floor r ∈ floor_options) scenario_registry).
  { intros k r Hk. unfold scenario_registry in Hk.
    apply lookup_insert_Some in Hk as [[_ <-] | [_ Hk]];
      [apply list_elem_of_here|].
    apply lookup_insert_Some in Hk as [[_ <-] | [_ Hk]];
      [apply list_elem_of_here|].
    now rewrite lookup_empty in Hk. }
  split; [exact Hfloors|].
  exact (proj2 (overview_pages_cover scenario_registry Hfloors)).
Defined.

(** * The generation loops on any building structure *)

Lemma generate_flat_counter rnd (rooms : list (string * string)) n
    (data : registry) :
  fst (generate_flat rnd rooms n data) = n + length rooms.
Proof.
  revert n data. induction rooms as [|[fl room] rest IH]; intros n data.
  - cbn. lia.
  - cbn [generate_flat length]. unfold synthesize. rewrite IH. lia.
Qed.

Lemma size_list_to_set_le (l : list string) :
  size (list_to_set l : gset string) <= length l.
Proof.
  induction l as [|x l IH]; [reflexivity|].
  cbn [list_to_set length].
  destruct (decide (x ∈ (list_to_set l : gset string))) as [Hin|Hout].
  - replace ({[x]} ∪ list_to_set l : gset string) with
      (list_to_set l : gset string); [lia|].
    symmetry. apply subseteq_union_1_L. now apply singleton_subseteq_l.
  - rewrite size_union by now apply disjoint_singleton_l.
    rewrite size_singleton. lia.
Qed.

(** X20: run on any building structure, from an empty dictionary, the two
    generation loops produce as keys exactly the room names with their
    spaces removed, so never more records than rooms.  When several rooms
    get the same id, the record kept under it is that of the last such
    room, built from the random outcomes of that room's turn. *)
Theorem generate_floors_keys
    (rnd : nat -> Draw) (structure : list (string * list string)) :
  let reg := snd (generate_floors rnd structure 0 ∅) in
  dom reg = list_to_set (ids_of (rooms_of structure)) /\
  size reg <= length (rooms_of structure) /\
  (forall before after fl room,
     rooms_of structure = (before ++ (fl, room) :: after)%list ->
     replace_space room ∉ ids_of after ->
     reg !! replace_space room
     = Some (snd (synthesize fl room (rnd (length before))))).
Proof.
  intros reg. subst reg. rewrite generate_floors_flat.
  assert (Hdom :
    dom (snd (generate_flat rnd (rooms_of structure) 0 ∅))
    = list_to_set (ids_of (rooms_of structure))).
  { now rewrite generate_flat_dom, dom_empty_L, union_empty_r_L. }
  split; [exact Hdom|]. split.
  - rewrite <- size_dom, Hdom.
    etransitivity; [apply size_list_to_set_le|].
    unfold ids_of. now rewrite length_map.
  - intros before after fl room Hsplit Hlast.
    rewrite Hsplit, generate_flat_app. cbn [generate_flat].
    unfold synthesize at 1.
    rewrite generate_flat_lookup_other by exact Hlast.
    rewrite lookup_insert_eq, generate_flat_counter. reflexivity.
Qed.

Lemma generate_floors_keys_witness :
  rooms_of [("Ground", ["Lab 1"; "Lab1"])]
  = ([("Ground", "Lab 1")] ++ ("Ground", "Lab1") :: [])%list /\
  (replace_space "Lab1" ∉ ids_of []) /\
  size (snd (generate_floors sample_rnd
               [("Ground", ["Lab 1"; "Lab1"])] 0 ∅)) <= 2 /\
  room_name <$> snd (generate_floors sample_rnd
                       [("Ground", ["Lab 1"; "Lab1"])] 0 ∅) !! "Lab1"
  = Some "Lab1".
Proof.
  assert (Hsplit : rooms_of [("Ground", ["Lab 1"; "Lab1"])]
                   = ([("Ground", "Lab 1")] ++ ("Ground", "Lab1") :: [])%list)
    by reflexivity.
  assert (Hlast : replace_space "Lab1" ∉ ids_of []) by apply not_elem_of_nil.
  split; [exact Hsplit|]. split; [exact Hlast|].
  destruct (generate_floors_keys sample_rnd [("Ground", ["Lab 1"; "Lab1"])])
    as (_ & Hsize & Hkept).
  split; [exact Hsize|].
  change "Lab1" with (replace_space "Lab1") at 1.
  now rewrite (Hkept _ _ _ _ Hsplit Hlast).
Defined.
